(** * The HDFS storage driver: write transactions, Writer, PutContent, Reader

    A shallow embedding of [registry/storage/driver/hdfs/hdfs.go].

    The remote side (the [hdfs] client library: [hdfs.Client],
    [hdfs.FileWriter], [hdfs.FileReader]) is not part of the driver; it is an
    interface here, the class [Backend], over an arbitrary state of the remote
    file system.  Every call that the driver makes on it is recorded, in call
    order, in a trace, so that statements such as "no remove was issued" or
    "the handle is flushed, then closed" can be written down.

    Go's [error] is [option error] ([None] is [nil]); a Go result [(T, error)]
    of a call that gives up on failure is [result T].  [int64] values are
    integers of [Z] with the wrap-around of the addition written out.
    Log output ([log.Errorf], [log.Infof]) is not modelled. *)

From Stdlib Require Import ZArith List String Bool Lia.
From Stdlib.Strings Require Import Byte.
From Stdlib Require Import DecimalString.
Import ListNotations.
Local Open Scope Z_scope.

Set Implicit Arguments.

(** ** Errors *)

(** What the remote side reports; [os.IsNotExist] looks at the kind only. *)
Inductive ErrKind : Type :=
| NotExist
| Exist
| OtherFailure.

Inductive error : Type :=
| Errorf (msg : string)                         (* fmt.Errorf(msg) *)
| BackendError (kind : ErrKind) (msg : string)  (* an error of the hdfs client *)
| ErrShortWrite                                 (* io.ErrShortWrite *)
| PathNotFoundError (Path : string)             (* storagedriver.PathNotFoundError *)
| InvalidOffsetError (Path : string) (Offset : Z). (* storagedriver.InvalidOffsetError *)

Definition os_IsNotExist (err : error) : bool :=
  match err with
  | BackendError NotExist _ => true
  | _ => false
  end.

Inductive result (A : Type) : Type :=
| Ok (a : A)
| Err (e : error).
Arguments Ok {A} a.
Arguments Err {A} e.

(** ** Machine integers *)

Definition int64_min : Z := - 2 ^ 63.
Definition int64_max : Z := 2 ^ 63 - 1.

(** The value an [int64] holds after an operation whose exact result is [z]. *)
Definition int64_wrap (z : Z) : Z := (z + 2 ^ 63) mod 2 ^ 64 - 2 ^ 63.

Definition int64_add (a b : Z) : Z := int64_wrap (a + b).

(** Go's [len] of a byte slice. *)
Definition len (p : list byte) : Z := Z.of_nat (List.length p).

(** ** The remote side *)

Definition Client : Type := nat.       (* *hdfs.Client *)
Definition FileWriterH : Type := nat.  (* *hdfs.FileWriter *)
Definition FileReaderH : Type := nat.  (* *hdfs.FileReader *)

(** The fields of [os.FileInfo] that the driver reads. *)
Record osFileInfo : Type := mkFileInfo {
  fi_IsDir : bool;
  fi_Size : Z;
  fi_ModTime : Z
}.

Definition io_SeekStart : Z := 0.

Class Backend (W : Type) : Type := {
  hdfs_New : string -> W -> result Client * W;
  client_MkdirAll : Client -> string -> Z -> W -> option error * W;
  client_Stat : Client -> string -> W -> result osFileInfo * W;
  client_Remove : Client -> string -> W -> option error * W;
  client_Append : Client -> string -> W -> result FileWriterH * W;
  client_Create : Client -> string -> W -> result FileWriterH * W;
  client_Open : Client -> string -> W -> result FileReaderH * W;
  writer_Write : FileWriterH -> list byte -> W -> (Z * option error) * W;
  writer_Flush : FileWriterH -> W -> option error * W;
  writer_Close : FileWriterH -> W -> option error * W;
  reader_Seek : FileReaderH -> Z -> Z -> W -> (Z * option error) * W;
  reader_Close : FileReaderH -> W -> option error * W;
  (* the contract of io.Writer: 0 <= n <= len(p) *)
  writer_Write_count :
    forall h p w, 0 <= fst (fst (writer_Write h p w)) <= len p
}.

(** One call on the remote side. *)
Inductive Event : Type :=
| EvNew (nameNode : string)
| EvMkdirAll (c : Client) (dir : string) (perm : Z)
| EvStat (c : Client) (name : string)
| EvRemove (c : Client) (name : string)
| EvAppend (c : Client) (name : string)
| EvCreate (c : Client) (name : string)
| EvOpen (c : Client) (name : string)
| EvWrite (h : FileWriterH) (p : list byte)
| EvFlush (h : FileWriterH)
| EvClose (h : FileWriterH)
| EvSeek (h : FileReaderH) (offset whence : Z)
| EvReaderClose (h : FileReaderH).

(** The remote file system together with the calls made on it so far. *)
Record World (W : Type) : Type := mkWorld {
  remote : W;
  trace : list Event
}.

(** ** Sequencing *)

Definition St (S A : Type) : Type := S -> A * S.

Definition ret {S A : Type} (a : A) : St S A := fun s => (a, s).

Definition bind {S A B : Type} (m : St S A) (k : A -> St S B) : St S B :=
  fun s => let (a, s') := m s in k a s'.

Declare Scope st_scope.
Delimit Scope st_scope with st.
Notation "x <- m ;; k" := (bind m (fun x => k))
  (at level 61, m at next level, right associativity) : st_scope.
Notation "' pat <- m ;; k" := (bind m (fun x => match x with pat => k end))
  (at level 61, pat pattern, m at next level, right associativity) : st_scope.
Local Open Scope st_scope.

(** A call on the remote side: run it and record it. *)
Definition call {W A : Type} (ev : Event) (op : W -> A * W) : St (World W) A :=
  fun w =>
    let (a, r) := op (remote w) in
    (a, {| remote := r; trace := trace w ++ [ev] |}).

(** ** The driver *)

Record DriverConfig : Type := mkConfig {
  nameNode : string;
  rootPath : string;
  maxClients : Z
}.

Record driver : Type := mkDriver {
  config : DriverConfig
}.

Record fileWriter : Type := mkFileWriter {
  client : Client;
  file : FileWriterH;
  path : string;
  size : Z;
  closed : bool;
  committed : bool;
  cancelled : bool
}.

Definition set_size (fw : fileWriter) (n : Z) : fileWriter :=
  mkFileWriter (client fw) (file fw) (path fw) n
               (closed fw) (committed fw) (cancelled fw).

Definition set_closed (fw : fileWriter) (b : bool) : fileWriter :=
  mkFileWriter (client fw) (file fw) (path fw) (size fw)
               b (committed fw) (cancelled fw).

Definition set_committed (fw : fileWriter) (b : bool) : fileWriter :=
  mkFileWriter (client fw) (file fw) (path fw) (size fw)
               (closed fw) b (cancelled fw).

Definition set_cancelled (fw : fileWriter) (b : bool) : fileWriter :=
  mkFileWriter (client fw) (file fw) (path fw) (size fw)
               (closed fw) (committed fw) b.

(** The state [Open] of a write transaction: no flag is set. *)
Definition is_open (fw : fileWriter) : bool :=
  negb (closed fw) && negb (committed fw) && negb (cancelled fw).

(** [path.Join] and [path.Dir] of the Go library. *)
Class PathLib : Type := {
  path_Join : string -> string -> string;
  path_Dir : string -> string
}.

Section Driver.

Context {W : Type} {be : Backend W} {pl : PathLib}.

Definition fullPath (d : driver) (subPath : string) : string :=
  path_Join (rootPath (config d)) subPath.

Definition newWriter (c : Client) (fullPath : string)
           (hdfsFileWriter : FileWriterH) (offset : Z) : fileWriter :=
  {| client := c; path := fullPath; file := hdfsFileWriter; size := offset;
     closed := false; committed := false; cancelled := false |}.

Definition newHdfsClient (nn : string) : St (World W) (result Client) :=
  call (EvNew nn) (hdfs_New nn).

(** *** fileWriter *)

Definition Write (fw : fileWriter) (p : list byte)
  : St (World W) ((Z * option error) * fileWriter) :=
  if closed fw then ret ((0, Some (Errorf "already closed")), fw)
  else if committed fw then ret ((0, Some (Errorf "already committed")), fw)
  else if cancelled fw then ret ((0, Some (Errorf "already cancelled")), fw)
  else
    '(n, err) <- call (EvWrite (file fw) p) (writer_Write (file fw) p) ;;
    ret ((n, err), set_size fw (int64_add (size fw) n)).

Definition Size (fw : fileWriter) : Z := size fw.

Definition Close (fw : fileWriter) : St (World W) (option error * fileWriter) :=
  if closed fw then ret (Some (Errorf "already closed"), fw)
  else
    e1 <- call (EvFlush (file fw)) (writer_Flush (file fw)) ;;
    match e1 with
    | Some err => ret (Some err, fw)
    | None =>
      e2 <- call (EvClose (file fw)) (writer_Close (file fw)) ;;
      match e2 with
      | Some err => ret (Some err, fw)
      | None => ret (None, set_closed fw true)
      end
    end.

Definition Cancel (fw : fileWriter) : St (World W) (option error * fileWriter) :=
  if closed fw then ret (Some (Errorf "already closed"), fw)
  else
    let fw := set_cancelled fw true in
    _ <- call (EvClose (file fw)) (writer_Close (file fw)) ;;
    e <- call (EvRemove (client fw) (path fw)) (client_Remove (client fw) (path fw)) ;;
    ret (e, fw).

Definition Commit (fw : fileWriter) : St (World W) (option error * fileWriter) :=
  if closed fw then ret (Some (Errorf "already closed"), fw)
  else if committed fw then ret (Some (Errorf "already committed"), fw)
  else if cancelled fw then ret (Some (Errorf "already cancelled"), fw)
  else
    e <- call (EvFlush (file fw)) (writer_Flush (file fw)) ;;
    match e with
    | Some err => ret (Some err, fw)
    | None => ret (None, set_committed fw true)
    end.

(** *** Writer

    The test [os.IsExist] on the error of [Create] only decides whether the
    error is logged; the error is returned either way. *)

Definition Writer (d : driver) (subPath : string) (append : bool)
  : St (World W) (result fileWriter) :=
  let fullPath := fullPath d subPath in
  let parentDir := path_Dir fullPath in
  r <- newHdfsClient (nameNode (config d)) ;;
  match r with
  | Err err => ret (Err err)
  | Ok client =>
    e <- call (EvMkdirAll client parentDir 511)
              (client_MkdirAll client parentDir 511) ;;
    match e with
    | Some err => ret (Err err)
    | None =>
      r <- call (EvStat client fullPath) (client_Stat client fullPath) ;;
      (* the size after the stat block, or its early return *)
      sz <- match r with
            | Err err =>
              if negb (os_IsNotExist err) then ret (Err err) else ret (Ok 0)
            | Ok fileInfo =>
              if append then ret (Ok (fi_Size fileInfo))
              else
                e <- call (EvRemove client fullPath)
                          (client_Remove client fullPath) ;;
                match e with
                | Some err => ret (Err err)
                | None => ret (Ok 0)
                end
            end ;;
      match sz with
      | Err err => ret (Err err)
      | Ok size =>
        if append then
          r <- call (EvAppend client fullPath) (client_Append client fullPath) ;;
          match r with
          | Err err => ret (Err err)
          | Ok file => ret (Ok (newWriter client fullPath file size))
          end
        else
          r <- call (EvCreate client fullPath) (client_Create client fullPath) ;;
          match r with
          | Err err => ret (Err err)
          | Ok file => ret (Ok (newWriter client fullPath file 0))
          end
      end
    end
  end.

(** *** PutContent *)

(** [io.Copy(writer, bytes.NewReader(contents))]: the reader has a
    [WriteTo], so the copy is one [Write] of the whole slice, none at all
    for an empty slice, and a short count without an error becomes
    [io.ErrShortWrite]. *)
Definition io_Copy (writer : fileWriter) (contents : list byte)
  : St (World W) ((Z * option error) * fileWriter) :=
  if len contents <=? 0 then ret ((0, None), writer)
  else
    '((m, err), writer) <- Write writer contents ;;
    let err := match err with
               | None => if m =? len contents then None else Some ErrShortWrite
               | Some e => Some e
               end in
    ret ((m, err), writer).

Definition PutContent (d : driver) (subPath : string) (contents : list byte)
  : St (World W) (option error) :=
  r <- Writer d subPath false ;;
  match r with
  | Err err => ret (Some err)
  | Ok writer =>
    '(res, writer) <-
      ('((_, err), writer) <- io_Copy writer contents ;;
       match err with
       | Some err =>
         '(_, writer) <- Cancel writer ;;
         ret (Some err, writer)
       | None => Commit writer
       end) ;;
    (* defer writer.Close() *)
    _ <- Close writer ;;
    ret res
  end.

(** *** Reader *)

Definition Reader (d : driver) (subPath : string) (offset : Z)
  : St (World W) (result FileReaderH) :=
  r <- newHdfsClient (nameNode (config d)) ;;
  match r with
  | Err err => ret (Err err)
  | Ok client =>
    let fullPath := fullPath d subPath in
    r <- call (EvOpen client fullPath) (client_Open client fullPath) ;;
    match r with
    | Err err =>
      if os_IsNotExist err then ret (Err (PathNotFoundError fullPath))
      else ret (Err err)
    | Ok file =>
      '(seekPos, err) <- call (EvSeek file offset io_SeekStart)
                              (reader_Seek file offset io_SeekStart) ;;
      match err with
      | Some err =>
        _ <- call (EvReaderClose file) (reader_Close file) ;;
        ret (Err err)
      | None =>
        if seekPos <? offset then
          _ <- call (EvReaderClose file) (reader_Close file) ;;
          ret (Err (InvalidOffsetError fullPath offset))
        else ret (Ok file)
      end
    end
  end.

End Driver.

(** ** Sequences of operations on one write transaction *)

Inductive Op : Type :=
| OpWrite (p : list byte)
| OpClose
| OpCommit
| OpCancel.

Section Runs.

Context {W : Type} {be : Backend W}.

Definition apply_op (o : Op) (fw : fileWriter) : St (World W) fileWriter :=
  match o with
  | OpWrite p => '(_, fw) <- Write fw p ;; ret fw
  | OpClose => '(_, fw) <- Close fw ;; ret fw
  | OpCommit => '(_, fw) <- Commit fw ;; ret fw
  | OpCancel => '(_, fw) <- Cancel fw ;; ret fw
  end.

Fixpoint run_ops (ops : list Op) (fw : fileWriter) : St (World W) fileWriter :=
  match ops with
  | [] => ret fw
  | o :: ops => fw <- apply_op o fw ;; run_ops ops fw
  end.

End Runs.

(** ** A scripted remote side

    For running the driver on concrete inputs: the answers of the remote
    side are read off a list, one per call, in call order.  A call that finds
    the list empty succeeds. *)

Inductive Answer : Type :=
| Succeed
| Fail (e : error)
| Value (n : Z) (e : option error).

Definition Script : Type := list Answer.

Definition next (s : Script) : Answer * Script :=
  match s with
  | [] => (Succeed, [])
  | a :: s => (a, s)
  end.

Definition answer_error (s : Script) : option error * Script :=
  let (a, s) := next s in
  (match a with
   | Succeed => None
   | Fail e => Some e
   | Value _ e => e
   end, s).

Definition answer_handle (s : Script) : result nat * Script :=
  let (a, s) := next s in
  (match a with
   | Succeed => Ok 0%nat
   | Fail e => Err e
   | Value n None => Ok (Z.to_nat n)
   | Value _ (Some e) => Err e
   end, s).

Definition answer_info (s : Script) : result osFileInfo * Script :=
  let (a, s) := next s in
  (match a with
   | Succeed => Ok (mkFileInfo false 0 0)
   | Fail e => Err e
   | Value n None => Ok (mkFileInfo false n 0)
   | Value _ (Some e) => Err e
   end, s).

(** The count of a write stays within the slice, as [io.Writer] asks. *)
Definition answer_count (p : list byte) (s : Script) : (Z * option error) * Script :=
  let (a, s) := next s in
  (match a with
   | Succeed => (len p, None)
   | Fail e => (0, Some e)
   | Value n e => (Z.max 0 (Z.min n (len p)), e)
   end, s).

Definition answer_position (offset : Z) (s : Script) : (Z * option error) * Script :=
  let (a, s) := next s in
  (match a with
   | Succeed => (offset, None)
   | Fail e => (0, Some e)
   | Value n e => (n, e)
   end, s).

#[export, refine] Instance Scripted : Backend Script := {|
  hdfs_New := fun _ => answer_handle;
  client_MkdirAll := fun _ _ _ => answer_error;
  client_Stat := fun _ _ => answer_info;
  client_Remove := fun _ _ => answer_error;
  client_Append := fun _ _ => answer_handle;
  client_Create := fun _ _ => answer_handle;
  client_Open := fun _ _ => answer_handle;
  writer_Write := fun _ p => answer_count p;
  writer_Flush := fun _ => answer_error;
  writer_Close := fun _ => answer_error;
  reader_Seek := fun _ offset _ => answer_position offset;
  reader_Close := fun _ => answer_error
|}.
Proof.
  intros h p w. unfold answer_count, len.
  destruct (next w) as [a s]. destruct a; simpl; lia.
Defined.

(** Stand-ins for [path.Join] and [path.Dir] in the concrete runs, good
    for a clean root and a one-element sub-path: the join puts a slash in
    between, and the parent directory of the joined path is the root. *)
Definition join_slash (root sub : string) : string :=
  String.append root (String.append "/" sub).

Definition dir_registry (name : string) : string := "/registry"%string.

#[export] Instance SlashPaths : PathLib := {|
  path_Join := join_slash;
  path_Dir := dir_registry
|}.

(** The empty world of a script. *)
Definition start (s : Script) : World Script := {| remote := s; trace := [] |}.

Definition someWriter : fileWriter :=
  {| client := 1%nat; file := 7%nat; path := "/registry/blob";
     size := 0; closed := false; committed := false; cancelled := false |}.

Definition someDriver : driver :=
  {| config := {| nameNode := "nn:8020"; rootPath := "/registry"; maxClients := 8 |} |}.

Definition abc : list byte := [x61; x62; x63]%byte.

Definition flushError : error := BackendError OtherFailure "flush failed".
Definition closeError : error := BackendError OtherFailure "close failed".
Definition removeError : error := BackendError OtherFailure "remove failed".
Definition notFound : error := BackendError NotExist "file does not exist".

(** The remote side answers: client 1, directories made, the file exists
    with 10 bytes, and then the handle 7 (after the remove, in truncate
    mode). *)
Definition appendScript : Script :=
  [Value 1 None; Succeed; Value 10 None; Value 7 None].

Definition truncateScript : Script :=
  [Value 1 None; Succeed; Value 10 None; Succeed; Value 7 None].

(** The same in truncate mode, and then the transport takes two bytes of a
    write. *)
Definition shortWriteScript : Script :=
  [Value 1 None; Succeed; Value 10 None; Succeed; Value 7 None; Value 2 None].

(** * The rest of the driver

    [GetContent], [Stat], [List], [Move], [Delete] and [buildConfig]. *)

(** The calls of the hdfs client that the paths above do not make:
    [ioutil.ReadAll] on a file handle, taken as one call on the handle,
    [Readdirnames] on a directory handle, and [Rename]. *)
Class BackendFiles (W : Type) : Type := {
  reader_ReadAll : FileReaderH -> W -> (list byte * option error) * W;
  reader_Readdirnames : FileReaderH -> Z -> W -> (list string * option error) * W;
  client_Rename : Client -> string -> string -> W -> option error * W
}.

(** A call of this second interface: run on the remote side.  The trace
    keeps to the calls of [Backend]; what such a call did shows in the state
    of the remote side that it hands on. *)
Definition ask {W A : Type} (op : W -> A * W) : St (World W) A :=
  fun w =>
    let (a, r) := op (remote w) in
    (a, {| remote := r; trace := trace w |}).

(** [storagedriver.FileInfoFields]. *)
Record FileInfoFields : Type := mkFields {
  fields_Path : string;
  fields_IsDir : bool;
  fields_Size : Z;
  fields_ModTime : Z
}.

Definition fromOSFileInfo (path : string) (info : osFileInfo) : FileInfoFields :=
  {| fields_Path := path;
     fields_IsDir := fi_IsDir info;
     fields_Size := fi_Size info;
     fields_ModTime := fi_ModTime info |}.

Section DriverRest.

Context {W : Type} {be : Backend W} {bf : BackendFiles W} {pl : PathLib}.

Definition GetContent (d : driver) (path : string)
  : St (World W) (result (list byte)) :=
  r <- Reader d path 0 ;;
  match r with
  | Err err => ret (Err err)
  | Ok rc =>
    res <- ('(p, err) <- ask (reader_ReadAll rc) ;;
            match err with
            | Some err => ret (Err err)
            | None => ret (Ok p)
            end) ;;
    (* defer rc.Close() *)
    _ <- call (EvReaderClose rc) (reader_Close rc) ;;
    ret res
  end.

Definition Stat (d : driver) (subPath : string)
  : St (World W) (result FileInfoFields) :=
  let fullPath := fullPath d subPath in
  r <- newHdfsClient (nameNode (config d)) ;;
  match r with
  | Err err => ret (Err err)
  | Ok client =>
    r <- call (EvStat client fullPath) (client_Stat client fullPath) ;;
    match r with
    | Err err =>
      if os_IsNotExist err then ret (Err (PathNotFoundError subPath))
      else ret (Err err)
    | Ok fi => ret (Ok (fromOSFileInfo subPath fi))
    end
  end.

Definition List (d : driver) (subPath : string)
  : St (World W) (result (list string)) :=
  let fullPath := fullPath d subPath in
  r <- newHdfsClient (nameNode (config d)) ;;
  match r with
  | Err err => ret (Err err)
  | Ok client =>
    r <- call (EvOpen client fullPath) (client_Open client fullPath) ;;
    match r with
    | Err err =>
      if os_IsNotExist err then ret (Err (PathNotFoundError subPath))
      else ret (Err err)
    | Ok dir =>
      res <- ('(fileNames, err) <- ask (reader_Readdirnames dir 0) ;;
              match err with
              | Some err => ret (Err err)
              | None => ret (Ok (map (path_Join subPath) fileNames))
              end) ;;
      (* defer dir.Close() *)
      _ <- call (EvReaderClose dir) (reader_Close dir) ;;
      ret res
    end
  end.

Definition Move (d : driver) (sourcePath destPath : string)
  : St (World W) (option error) :=
  let source := fullPath d sourcePath in
  let dest := fullPath d destPath in
  r <- newHdfsClient (nameNode (config d)) ;;
  match r with
  | Err err => ret (Some err)
  | Ok client =>
    r <- call (EvStat client source) (client_Stat client source) ;;
    (* os.IsNotExist(err), false for a nil error *)
    if match r with
       | Err err => os_IsNotExist err
       | Ok _ => false
       end
    then ret (Some (PathNotFoundError sourcePath))
    else
      e <- call (EvMkdirAll client (path_Dir dest) 493)
                (client_MkdirAll client (path_Dir dest) 493) ;;
      match e with
      | Some err => ret (Some err)
      | None => ask (client_Rename client source dest)
      end
  end.

Definition Delete (d : driver) (subPath : string)
  : St (World W) (option error) :=
  let fullPath := fullPath d subPath in
  r <- newHdfsClient (nameNode (config d)) ;;
  match r with
  | Err err => ret (Some err)
  | Ok client =>
    r <- call (EvStat client fullPath) (client_Stat client fullPath) ;;
    match r with
    | Err err =>
      if negb (os_IsNotExist err) then ret (Some err)
      else ret (Some (PathNotFoundError subPath))
    | Ok _ => call (EvRemove client fullPath) (client_Remove client fullPath)
    end
  end.

End DriverRest.

(** ** Configuration *)

Definition paramNameNode : string := "namenode".
Definition paramRootDir : string := "rootdirectory".
Definition paramMaxClients : string := "maxClients".
Definition defaultMaxClients : Z := 1024.

(** A value of type [interface{}] in the parameter map, as far as
    [fmt.Sprint] tells values apart: nil, a string, an integer, or anything
    else together with its printed form. *)
Inductive value : Type :=
| Nil
| Str (s : string)
| Int (z : Z)
| Other (shown : string).

Definition fmt_Sprint (v : value) : string :=
  match v with
  | Nil => "<nil>"
  | Str s => s
  | Int z => NilZero.string_of_int (Z.to_int z)
  | Other shown => shown
  end.

(** The parameter map, by its lookup: [None] for a key that is not there. *)
Definition Parameters : Type := string -> option value.

(** [base.GetLimitFromParameter] and the method [Error] of an error: both
    lie outside this file. *)
Class ConfigLib : Type := {
  GetLimitFromParameter : value -> Z -> Z -> Z * option error;
  error_Error : error -> string
}.

Section Config.

Context {cl : ConfigLib}.

Definition buildConfig (parameters : Parameters) : result DriverConfig :=
  let nn := match parameters paramNameNode with
            | Some nn => if String.eqb (fmt_Sprint nn) "" then Str "" else nn
            | None => Str ""
            end in
  match parameters paramRootDir with
  | None => Err (Errorf "no rootdirectory parameter provided")
  | Some root =>
    if String.eqb (fmt_Sprint root) ""
    then Err (Errorf "no rootdirectory parameter provided")
    else
      (* a key that is not in the map reads as nil *)
      let limit := match parameters paramMaxClients with
                   | Some v => v
                   | None => Nil
                   end in
      let '(maxClients, err) := GetLimitFromParameter limit 1 defaultMaxClients in
      match err with
      | Some err =>
        Err (Errorf (String.append "maxClients config error: " (error_Error err)))
      | None =>
        Ok {| nameNode := fmt_Sprint nn;
              rootPath := fmt_Sprint root;
              maxClients := maxClients |}
      end
  end.

End Config.

(** ** More of the scripted remote side *)

(** A file handle reads as [content] (a [Value n] answer cuts it to [n]
    bytes), a directory handle lists [names]. *)
Definition answer_bytes (content : list byte) (s : Script)
  : (list byte * option error) * Script :=
  let (a, s) := next s in
  (match a with
   | Succeed => (content, None)
   | Fail e => ([], Some e)
   | Value n e => (firstn (Z.to_nat n) content, e)
   end, s).

Definition answer_names (names : list string) (s : Script)
  : (list string * option error) * Script :=
  let (a, s) := next s in
  (match a with
   | Succeed => (names, None)
   | Fail e => ([], Some e)
   | Value n e => (firstn (Z.to_nat n) names, e)
   end, s).

Definition ScriptedFiles (content : list byte) (names : list string)
  : BackendFiles Script :=
  {| reader_ReadAll := fun _ => answer_bytes content;
     reader_Readdirnames := fun _ _ => answer_names names;
     client_Rename := fun _ _ _ => answer_error |}.

(** A stand-in for the two library functions of the configuration: nil gives
    the default, an integer at least [min] itself, a smaller one [min], and
    anything else is refused. *)
Definition limit_of (v : value) (min def : Z) : Z * option error :=
  match v with
  | Nil => (def, None)
  | Int z => (Z.max z min, None)
  | _ => (0, Some (Errorf "invalid value"))
  end.

Definition message_of (e : error) : string :=
  match e with
  | Errorf msg => msg
  | BackendError _ msg => msg
  | ErrShortWrite => "short write"
  | PathNotFoundError p => String.append "Path not found: " p
  | InvalidOffsetError p _ => String.append "Invalid offset for path: " p
  end.

Definition SimpleConfigLib : ConfigLib :=
  {| GetLimitFromParameter := limit_of; error_Error := message_of |}.

(** The parameters of a registry that names its root only. *)
Definition rootOnly : Parameters :=
  fun key => if String.eqb key "rootdirectory" then Some (Str "/registry") else None.

Definition statError : error := BackendError OtherFailure "stat failed".
Definition readError : error := BackendError OtherFailure "read failed".

(** ** Kinds of calls *)

(** The calls that belong to a write transaction: those on its handle, and
    the remove of its path by its client. *)
Definition own_event (fw : fileWriter) (ev : Event) : Prop :=
  match ev with
  | EvWrite h _ => h = file fw
  | EvFlush h => h = file fw
  | EvClose h => h = file fw
  | EvRemove c name => c = client fw /\ name = path fw
  | _ => False
  end.

Definition is_remove (ev : Event) : bool :=
  match ev with
  | EvRemove _ _ => true
  | _ => false
  end.

Definition is_create (ev : Event) : bool :=
  match ev with
  | EvCreate _ _ => true
  | _ => false
  end.

Definition is_append (ev : Event) : bool :=
  match ev with
  | EvAppend _ _ => true
  | _ => false
  end.

(** * Properties *)

(** ** Sequencing lemmas *)

Lemma bind_run {S A B : Type} (m : St S A) (k : A -> St S B) (s s' : S) (a : A) :
  m s = (a, s') -> bind m k s = k a s'.
Proof. intros H. unfold bind. rewrite H. reflexivity. Qed.

Lemma call_run {W A : Type} (ev : Event) (op : W -> A * W)
      (w : World W) (a : A) (r : W) :
  op (remote w) = (a, r) ->
  call ev op w = (a, {| remote := r; trace := trace w ++ [ev] |}).
Proof. intros H. unfold call. rewrite H. reflexivity. Qed.

(** Runs one recorded call whose answer is among the hypotheses. *)
Ltac step :=
  erewrite bind_run by (apply call_run; simpl; eassumption); simpl.

Ltac tidy_trace := repeat (rewrite <- app_assoc; simpl).

(** Runs every recorded call whose answer is among the hypotheses. *)
Ltac run_calls :=
  unfold bind, ret; simpl;
  repeat (erewrite call_run by (simpl; eassumption); simpl);
  tidy_trace.

Lemma int64_add_exact (a b : Z) :
  int64_min <= a + b <= int64_max -> int64_add a b = a + b.
Proof.
  unfold int64_add, int64_wrap, int64_min, int64_max. intros H.
  rewrite Z.mod_small; lia.
Qed.

Lemma int64_add_range (a b : Z) :
  int64_min <= int64_add a b <= int64_max.
Proof.
  unfold int64_add, int64_wrap, int64_min, int64_max.
  pose proof (Z.mod_pos_bound (a + b + 2 ^ 63) (2 ^ 64)). lia.
Qed.

Lemma is_open_flags (fw : fileWriter) :
  is_open fw = true <->
  closed fw = false /\ committed fw = false /\ cancelled fw = false.
Proof.
  unfold is_open.
  destruct (closed fw), (committed fw), (cancelled fw); simpl; intuition congruence.
Qed.

Section Transaction.

Context {W : Type} {be : Backend W}.

(** *** The guards *)

Lemma Write_closed (fw : fileWriter) (p : list byte) (w : World W) :
  closed fw = true ->
  Write fw p w = ((0, Some (Errorf "already closed"), fw), w).
Proof. intros H. unfold Write. rewrite H. reflexivity. Qed.

Lemma Write_committed (fw : fileWriter) (p : list byte) (w : World W) :
  closed fw = false -> committed fw = true ->
  Write fw p w = ((0, Some (Errorf "already committed"), fw), w).
Proof. intros H1 H2. unfold Write. rewrite H1, H2. reflexivity. Qed.

Lemma Write_cancelled (fw : fileWriter) (p : list byte) (w : World W) :
  closed fw = false -> committed fw = false -> cancelled fw = true ->
  Write fw p w = ((0, Some (Errorf "already cancelled"), fw), w).
Proof. intros H1 H2 H3. unfold Write. rewrite H1, H2, H3. reflexivity. Qed.

Lemma Commit_closed (fw : fileWriter) (w : World W) :
  closed fw = true ->
  Commit fw w = ((Some (Errorf "already closed"), fw), w).
Proof. intros H. unfold Commit. rewrite H. reflexivity. Qed.

Lemma Commit_committed (fw : fileWriter) (w : World W) :
  closed fw = false -> committed fw = true ->
  Commit fw w = ((Some (Errorf "already committed"), fw), w).
Proof. intros H1 H2. unfold Commit. rewrite H1, H2. reflexivity. Qed.

Lemma Commit_cancelled (fw : fileWriter) (w : World W) :
  closed fw = false -> committed fw = false -> cancelled fw = true ->
  Commit fw w = ((Some (Errorf "already cancelled"), fw), w).
Proof. intros H1 H2 H3. unfold Commit. rewrite H1, H2, H3. reflexivity. Qed.

Lemma Close_closed (fw : fileWriter) (w : World W) :
  closed fw = true ->
  Close fw w = ((Some (Errorf "already closed"), fw), w).
Proof. intros H. unfold Close. rewrite H. reflexivity. Qed.

Lemma Cancel_closed (fw : fileWriter) (w : World W) :
  closed fw = true ->
  Cancel fw w = ((Some (Errorf "already closed"), fw), w).
Proof. intros H. unfold Cancel. rewrite H. reflexivity. Qed.

(** The count that [Write] returns lies within the slice, so the
    [bytes.Reader.WriteTo] under [io_Copy] never meets a count beyond the
    slice (on which it would panic). *)
Lemma Write_count (fw : fileWriter) (p : list byte) (w : World W) :
  0 <= fst (fst (fst (Write fw p w))) <= len p.
Proof.
  assert (Hlen : 0 <= len p) by (unfold len; lia).
  unfold Write.
  destruct (closed fw); [ simpl; lia | ].
  destruct (committed fw); [ simpl; lia | ].
  destruct (cancelled fw); [ simpl; lia | ].
  unfold bind, call, ret.
  pose proof (writer_Write_count (file fw) p (remote w)) as Hc.
  destruct (writer_Write (file fw) p (remote w)) as [[n e] r]. exact Hc.
Qed.

(** *** What each operation does once its guard lets it through *)

Lemma Write_open (fw : fileWriter) (p : list byte) (w : World W)
      (n : Z) (err : option error) (r : W) :
  is_open fw = true ->
  writer_Write (file fw) p (remote w) = ((n, err), r) ->
  Write fw p w =
  ((n, err, set_size fw (int64_add (size fw) n)),
   {| remote := r; trace := trace w ++ [EvWrite (file fw) p] |}).
Proof.
  intros Ho Hw. apply is_open_flags in Ho. destruct Ho as (H1 & H2 & H3).
  unfold Write. rewrite H1, H2, H3. step. reflexivity.
Qed.

Lemma Commit_open (fw : fileWriter) (w : World W) (e : option error) (r : W) :
  is_open fw = true ->
  writer_Flush (file fw) (remote w) = (e, r) ->
  Commit fw w =
  ((e, match e with Some _ => fw | None => set_committed fw true end),
   {| remote := r; trace := trace w ++ [EvFlush (file fw)] |}).
Proof.
  intros Ho Hf. apply is_open_flags in Ho. destruct Ho as (H1 & H2 & H3).
  unfold Commit. rewrite H1, H2, H3. step. destruct e; reflexivity.
Qed.

Lemma Close_flush_fails (fw : fileWriter) (w : World W) (e : error) (r : W) :
  closed fw = false ->
  writer_Flush (file fw) (remote w) = (Some e, r) ->
  Close fw w =
  ((Some e, fw), {| remote := r; trace := trace w ++ [EvFlush (file fw)] |}).
Proof. intros H1 Hf. unfold Close. rewrite H1. step. reflexivity. Qed.

Lemma Close_flushed (fw : fileWriter) (w : World W)
      (e : option error) (r1 r2 : W) :
  closed fw = false ->
  writer_Flush (file fw) (remote w) = (None, r1) ->
  writer_Close (file fw) r1 = (e, r2) ->
  Close fw w =
  ((e, match e with Some _ => fw | None => set_closed fw true end),
   {| remote := r2;
      trace := trace w ++ [EvFlush (file fw); EvClose (file fw)] |}).
Proof.
  intros H1 Hf Hc. unfold Close. rewrite H1. step. step. tidy_trace.
  destruct e; reflexivity.
Qed.

Lemma Cancel_not_closed (fw : fileWriter) (w : World W)
      (ec er : option error) (r1 r2 : W) :
  closed fw = false ->
  writer_Close (file fw) (remote w) = (ec, r1) ->
  client_Remove (client fw) (path fw) r1 = (er, r2) ->
  Cancel fw w =
  ((er, set_cancelled fw true),
   {| remote := r2;
      trace := trace w ++ [EvClose (file fw); EvRemove (client fw) (path fw)] |}).
Proof.
  intros H1 Hc Hr. unfold Cancel. rewrite H1. step. step. tidy_trace.
  reflexivity.
Qed.

End Transaction.

Section TransactionProperties.

Context {W : Type} {be : Backend W}.

(** C3. [Write] is valid only in the state Open.  With a flag set it
    fails with "already closed", "already committed" or "already
    cancelled" (the first flag that is set, in this order), returns the
    count 0, makes no call on the transport (so no byte is appended) and
    leaves the transaction, its size included, as it was.  In Open it
    makes exactly one call, the write of [p] on the transaction's handle,
    returns the count [n] and the error of that call as they are, and adds
    [n] to the size: an [int64] addition, which is the exact sum whenever
    the sum fits. *)
Theorem Write_only_in_Open (fw : fileWriter) (p : list byte) (w : World W) :
  (is_open fw = false ->
     exists msg,
       In msg ["already closed"; "already committed"; "already cancelled"]%string
       /\ Write fw p w = ((0, Some (Errorf msg), fw), w))
  /\ (closed fw = true ->
        Write fw p w = ((0, Some (Errorf "already closed"), fw), w))
  /\ (closed fw = false -> committed fw = true ->
        Write fw p w = ((0, Some (Errorf "already committed"), fw), w))
  /\ (closed fw = false -> committed fw = false -> cancelled fw = true ->
        Write fw p w = ((0, Some (Errorf "already cancelled"), fw), w))
  /\ (is_open fw = true ->
        forall n err r,
          writer_Write (file fw) p (remote w) = ((n, err), r) ->
          exists fw',
            Write fw p w =
            ((n, err, fw'),
             {| remote := r; trace := trace w ++ [EvWrite (file fw) p] |})
            /\ Size fw' = int64_add (Size fw) n
            /\ (int64_min <= Size fw + n <= int64_max -> Size fw' = Size fw + n)
            /\ 0 <= n <= len p
            /\ is_open fw' = true).
Proof.
  repeat split.
  - intros Hn. unfold is_open in Hn.
    destruct (closed fw) eqn:H1; [ | destruct (committed fw) eqn:H2;
      [ | destruct (cancelled fw) eqn:H3; [ | discriminate Hn ] ] ].
    + exists "already closed"%string. split; [ simpl; auto | ].
      now apply Write_closed.
    + exists "already committed"%string. split; [ simpl; auto | ].
      now apply Write_committed.
    + exists "already cancelled"%string. split; [ simpl; auto | ].
      now apply Write_cancelled.
  - apply Write_closed.
  - apply Write_committed.
  - apply Write_cancelled.
  - intros Ho n err r Hw.
    exists (set_size fw (int64_add (size fw) n)). split; [ | split; [ | split; [ | split ] ] ].
    + now apply Write_open.
    + reflexivity.
    + intros Hfit. unfold Size. simpl. now apply int64_add_exact.
    + pose proof (writer_Write_count (file fw) p (remote w)) as Hc.
      rewrite Hw in Hc. exact Hc.
    + exact Ho.
Qed.

(** C4. In the state Open, [Commit] makes one call on the transport, the
    flush of the handle, and no close; when the flush succeeds the
    transaction is Committed (the [committed] flag alone is set) and
    [Commit] returns nil.  A second [Commit] then fails with "already
    committed"; a [Commit] after a [Close] that succeeded fails with
    "already closed"; a [Commit] after a [Cancel] fails with "already
    cancelled".  The failing calls touch neither the transport nor the
    transaction. *)
Theorem Commit_flushes_once (fw : fileWriter) (w : World W) :
  is_open fw = true ->
  (forall r, writer_Flush (file fw) (remote w) = (None, r) ->
     exists fw1 w1,
       Commit fw w = ((None, fw1), w1)
       /\ trace w1 = trace w ++ [EvFlush (file fw)]
       /\ remote w1 = r
       /\ committed fw1 = true /\ closed fw1 = false /\ cancelled fw1 = false
       /\ Commit fw1 w1 = ((Some (Errorf "already committed"), fw1), w1))
  /\ (forall fw1 w1, Close fw w = ((None, fw1), w1) ->
        Commit fw1 w1 = ((Some (Errorf "already closed"), fw1), w1))
  /\ (forall e fw1 w1, Cancel fw w = ((e, fw1), w1) ->
        Commit fw1 w1 = ((Some (Errorf "already cancelled"), fw1), w1)).
Proof.
  intros Ho. pose proof Ho as Hf. apply is_open_flags in Hf.
  destruct Hf as (H1 & H2 & H3). repeat split.
  - intros r Hr.
    exists (set_committed fw true),
           {| remote := r; trace := trace w ++ [EvFlush (file fw)] |}.
    rewrite (Commit_open fw w Ho Hr). repeat split; try assumption.
    apply Commit_committed; [ exact H1 | reflexivity ].
  - intros fw1 w1 Hc.
    destruct (writer_Flush (file fw) (remote w)) as [e r1] eqn:Hfl.
    destruct e as [e | ].
    + rewrite (Close_flush_fails fw w H1 Hfl) in Hc. discriminate Hc.
    + destruct (writer_Close (file fw) r1) as [e2 r2] eqn:Hcl.
      rewrite (Close_flushed fw w H1 Hfl Hcl) in Hc.
      destruct e2; inversion Hc; subst. apply Commit_closed. reflexivity.
  - intros e fw1 w1 Hc.
    destruct (writer_Close (file fw) (remote w)) as [ec r1] eqn:Hcl.
    destruct (client_Remove (client fw) (path fw) r1) as [er r2] eqn:Hrm.
    rewrite (Cancel_not_closed fw w H1 Hcl Hrm) in Hc.
    inversion Hc; subst. apply Commit_cancelled; simpl; auto.
Qed.

(** C5. In the state Open, [Close] flushes the handle and then closes it,
    in this order and nothing else; when both succeed the transaction is
    ClosedWithoutCommit (the [closed] flag alone is set) and [Close]
    returns nil.  A second [Close] is no no-op: it fails with "already
    closed", and calls nothing. *)
Theorem Close_flushes_then_closes (fw : fileWriter) (w : World W) (r1 r2 : W) :
  is_open fw = true ->
  writer_Flush (file fw) (remote w) = (None, r1) ->
  writer_Close (file fw) r1 = (None, r2) ->
  exists fw1 w1,
    Close fw w = ((None, fw1), w1)
    /\ trace w1 = trace w ++ [EvFlush (file fw); EvClose (file fw)]
    /\ remote w1 = r2
    /\ closed fw1 = true /\ committed fw1 = false /\ cancelled fw1 = false
    /\ Close fw1 w1 = ((Some (Errorf "already closed"), fw1), w1).
Proof.
  intros Ho Hfl Hcl. apply is_open_flags in Ho. destruct Ho as (H1 & H2 & H3).
  exists (set_closed fw true),
         {| remote := r2;
            trace := trace w ++ [EvFlush (file fw); EvClose (file fw)] |}.
  rewrite (Close_flushed fw w H1 Hfl Hcl). repeat split; try assumption.
Qed.

(** C9. A failing flush or a failing close of the handle during [Close],
    and a failing flush during [Commit], set no flag: the error of the
    transport is what the operation returns, and the transaction is the
    one it was, so one that was Open is Open still. *)
Theorem failed_Close_Commit_keep_state (fw : fileWriter) (w : World W) :
  is_open fw = true ->
  (forall e r, writer_Flush (file fw) (remote w) = (Some e, r) ->
     exists w1, Close fw w = ((Some e, fw), w1)
                /\ trace w1 = trace w ++ [EvFlush (file fw)])
  /\ (forall e r1 r2,
        writer_Flush (file fw) (remote w) = (None, r1) ->
        writer_Close (file fw) r1 = (Some e, r2) ->
        exists w1, Close fw w = ((Some e, fw), w1)
                   /\ trace w1 = trace w ++ [EvFlush (file fw); EvClose (file fw)])
  /\ (forall e r, writer_Flush (file fw) (remote w) = (Some e, r) ->
        exists w1, Commit fw w = ((Some e, fw), w1)
                   /\ trace w1 = trace w ++ [EvFlush (file fw)]).
Proof.
  intros Ho. pose proof Ho as Hf. apply is_open_flags in Hf.
  destruct Hf as (H1 & H2 & H3). repeat split.
  - intros e r Hfl. eexists. split.
    + rewrite (Close_flush_fails fw w H1 Hfl). reflexivity.
    + reflexivity.
  - intros e r1 r2 Hfl Hcl. eexists. split.
    + rewrite (Close_flushed fw w H1 Hfl Hcl). reflexivity.
    + reflexivity.
  - intros e r Hfl. eexists. split.
    + rewrite (Commit_open fw w Ho Hfl). reflexivity.
    + reflexivity.
Qed.

(** C10. Once past its guard (the transaction is not closed), [Cancel]
    sets the [cancelled] flag, closes the handle and removes the target
    path, in this order.  Whatever the close answers is dropped: the flag
    is set and the remove is issued also when the close fails, and what
    [Cancel] returns is the answer of the remove, error or nil. *)
Theorem Cancel_returns_remove_result
        (fw : fileWriter) (w : World W) (ec er : option error) (r1 r2 : W) :
  closed fw = false ->
  writer_Close (file fw) (remote w) = (ec, r1) ->
  client_Remove (client fw) (path fw) r1 = (er, r2) ->
  exists fw1 w1,
    Cancel fw w = ((er, fw1), w1)
    /\ cancelled fw1 = true
    /\ trace w1 = trace w ++ [EvClose (file fw); EvRemove (client fw) (path fw)]
    /\ remote w1 = r2.
Proof.
  intros H1 Hcl Hrm.
  exists (set_cancelled fw true),
         {| remote := r2;
            trace := trace w ++ [EvClose (file fw); EvRemove (client fw) (path fw)] |}.
  rewrite (Cancel_not_closed fw w H1 Hcl Hrm). repeat split.
Qed.

End TransactionProperties.

Section DriverProperties.

Context {W : Type} {be : Backend W} {pl : PathLib}.

(** Splits on the answer of every call in a hypothesis. *)
Ltac split_calls H :=
  repeat match type of H with
         | context [let (_, _) := ?x in _] => destruct x eqn:?; simpl in H
         | context [match ?x with _ => _ end] => destruct x eqn:?; simpl in H
         | context [if ?x then _ else _] => destruct x eqn:?; simpl in H
         end.

(** A transaction that [Writer] returns is Open, on the full path. *)
Lemma Writer_fresh (d : driver) (subPath : string) (append : bool)
      (w w1 : World W) (fw : fileWriter) :
  Writer d subPath append w = (Ok fw, w1) ->
  is_open fw = true /\ path fw = fullPath d subPath.
Proof.
  intros H. unfold Writer, newHdfsClient, bind, call, ret in H.
  split_calls H; inversion H; subst; split; reflexivity.
Qed.

(** The copy changes nothing of the transaction but its size, and reports
    no error only when the whole slice was taken. *)
Lemma io_Copy_keeps (fw fw2 : fileWriter) (contents : list byte)
      (w w2 : World W) (n : Z) (cerr : option error) :
  io_Copy fw contents w = ((n, cerr, fw2), w2) ->
  file fw2 = file fw /\ client fw2 = client fw /\ path fw2 = path fw
  /\ closed fw2 = closed fw /\ committed fw2 = committed fw
  /\ cancelled fw2 = cancelled fw
  /\ (cerr = None -> n = len contents).
Proof.
  intros H. unfold io_Copy in H.
  destruct (len contents <=? 0) eqn:Hlen.
  - inversion H; subst. repeat split.
    intros _. apply Z.leb_le in Hlen. unfold len in *. lia.
  - unfold bind in H. destruct (Write fw contents w) as [[[m e] fw'] w'] eqn:Hw.
    unfold ret in H. inversion H; subst; clear H.
    assert (Hk : file fw2 = file fw /\ client fw2 = client fw
                 /\ path fw2 = path fw /\ closed fw2 = closed fw
                 /\ committed fw2 = committed fw /\ cancelled fw2 = cancelled fw).
    { unfold Write, bind, call, ret in Hw.
      split_calls Hw; inversion Hw; subst; repeat split; simpl; assumption. }
    destruct Hk as (K1 & K2 & K3 & K4 & K5 & K6). repeat split; try assumption.
    destruct e; [ discriminate | ].
    destruct (n =? len contents) eqn:Hn; [ | discriminate ].
    intros _. now apply Z.eqb_eq.
Qed.

(** C6. Writer on a file that exists ([Stat] succeeds and reports the
    size [N]).  In append mode nothing is removed, the handle is the one
    that [Append] on the full path gives, and the transaction starts Open
    with the size [N].  In truncate mode the file is first removed, then
    the handle comes from [Create] on the full path (a fresh file), and
    the transaction starts Open with the size 0. *)
Theorem Writer_on_existing_file
        (d : driver) (subPath : string) (w : World W)
        (c : Client) (info : osFileInfo) (r1 r2 r3 : W) :
  let fp := fullPath d subPath in
  hdfs_New (nameNode (config d)) (remote w) = (Ok c, r1) ->
  client_MkdirAll c (path_Dir fp) 511 r1 = (None, r2) ->
  client_Stat c fp r2 = (Ok info, r3) ->
  (forall h r4,
     client_Append c fp r3 = (Ok h, r4) ->
     exists fw w',
       Writer d subPath true w = (Ok fw, w')
       /\ Size fw = fi_Size info /\ file fw = h /\ path fw = fp
       /\ is_open fw = true
       /\ remote w' = r4
       /\ trace w' = trace w ++ [EvNew (nameNode (config d));
                                 EvMkdirAll c (path_Dir fp) 511;
                                 EvStat c fp; EvAppend c fp])
  /\ (forall h r4 r5,
        client_Remove c fp r3 = (None, r4) ->
        client_Create c fp r4 = (Ok h, r5) ->
        exists fw w',
          Writer d subPath false w = (Ok fw, w')
          /\ Size fw = 0 /\ file fw = h /\ path fw = fp
          /\ is_open fw = true
          /\ remote w' = r5
          /\ trace w' = trace w ++ [EvNew (nameNode (config d));
                                    EvMkdirAll c (path_Dir fp) 511;
                                    EvStat c fp; EvRemove c fp; EvCreate c fp]).
Proof.
  intros fp Hnew Hmk Hst. split.
  - intros h r4 Hap. eexists. eexists. split.
    + unfold Writer, newHdfsClient. fold fp.
      run_calls. reflexivity.
    + repeat split.
  - intros h r4 r5 Hrm Hcr. eexists. eexists. split.
    + unfold Writer, newHdfsClient. fold fp.
      run_calls. reflexivity.
    + repeat split.
Qed.

(** In the state Open the copy hands the whole slice to the transport in
    one write, and an empty slice not at all. *)
Lemma io_Copy_open (fw fw2 : fileWriter) (contents : list byte)
      (w w2 : World W) (n : Z) (cerr : option error) :
  is_open fw = true ->
  io_Copy fw contents w = ((n, cerr, fw2), w2) ->
  trace w2 = trace w ++ (if len contents <=? 0 then []
                         else [EvWrite (file fw) contents]).
Proof.
  intros Ho H. unfold io_Copy in H.
  destruct (len contents <=? 0) eqn:Hlen.
  - inversion H; subst. now rewrite app_nil_r.
  - unfold bind in H.
    destruct (writer_Write (file fw) contents (remote w)) as [[m e] r] eqn:Hw.
    rewrite (Write_open fw contents w Ho Hw) in H.
    unfold ret in H. inversion H; subst. reflexivity.
Qed.

(** C7. PutContent opens the transaction with [Writer] in truncate mode
    and gives up with the error of [Writer] when that fails.  Otherwise
    it copies the content: the whole slice goes to the transport in one
    write.  When the copy fails, and it does fail whenever fewer bytes
    than the whole content were taken, [Cancel] runs on the transaction
    (the handle is closed and a remove of the full path is issued) before
    PutContent returns, and what PutContent returns is the error of the
    copy.  When the copy succeeds, all bytes were taken and [Commit] runs
    (the handle is flushed); PutContent returns what [Commit] returns.
    So PutContent returns nil only if the transport took all of the
    content: a short file is never left behind without an error.  In both
    cases the deferred [Close] runs last. *)
Theorem PutContent_cancels_or_commits
        (d : driver) (subPath : string) (contents : list byte) (w : World W) :
  (forall err w1,
     Writer d subPath false w = (Err err, w1) ->
     PutContent d subPath contents w = (Some err, w1))
  /\ (forall writer w1 n cerr fw2 w2,
        Writer d subPath false w = (Ok writer, w1) ->
        io_Copy writer contents w1 = ((n, cerr, fw2), w2) ->
        trace w2 = trace w1 ++ (if len contents <=? 0 then []
                                else [EvWrite (file writer) contents])
        /\ (forall err, cerr = Some err ->
              exists ec fw3 w3,
                Cancel fw2 w2 = ((ec, fw3), w3)
                /\ cancelled fw3 = true
                /\ trace w3 = trace w2 ++ [EvClose (file writer);
                                           EvRemove (client writer) (fullPath d subPath)]
                /\ PutContent d subPath contents w = (Some err, snd (Close fw3 w3)))
        /\ (cerr = None ->
              n = len contents
              /\ exists res fw3 w3,
                  Commit fw2 w2 = ((res, fw3), w3)
                  /\ (res = None -> committed fw3 = true)
                  /\ trace w3 = trace w2 ++ [EvFlush (file writer)]
                  /\ PutContent d subPath contents w = (res, snd (Close fw3 w3)))
        /\ (n <> len contents -> exists err, cerr = Some err)
        /\ (fst (PutContent d subPath contents w) = None ->
              cerr = None /\ n = len contents)).
Proof.
  split.
  - intros err w1 Hw. unfold PutContent.
    erewrite bind_run by eassumption. reflexivity.
  - intros writer w1 n cerr fw2 w2 Hw Hcopy.
    destruct (Writer_fresh _ _ _ _ Hw) as [Ho Hpath].
    destruct (io_Copy_keeps _ _ _ Hcopy) as (K1 & K2 & K3 & K4 & K5 & K6 & Kn).
    assert (Ho2 : is_open fw2 = true).
    { apply is_open_flags in Ho. apply is_open_flags.
      rewrite K4, K5, K6. exact Ho. }
    pose proof Ho2 as Hflags. apply is_open_flags in Hflags.
    destruct Hflags as (F1 & F2 & F3).
    assert (Hcancel : forall err, cerr = Some err ->
              exists ec fw3 w3,
                Cancel fw2 w2 = ((ec, fw3), w3)
                /\ cancelled fw3 = true
                /\ trace w3 = trace w2 ++ [EvClose (file writer);
                                           EvRemove (client writer) (fullPath d subPath)]
                /\ PutContent d subPath contents w = (Some err, snd (Close fw3 w3))).
    { intros err ->.
      destruct (writer_Close (file fw2) (remote w2)) as [ec r1] eqn:Hcl.
      destruct (client_Remove (client fw2) (path fw2) r1) as [er r2] eqn:Hrm.
      pose proof (Cancel_not_closed fw2 w2 F1 Hcl Hrm) as Hc.
      eexists. eexists. eexists. split; [ exact Hc | ].
      split; [ reflexivity | ]. split.
      - simpl. rewrite K1, K2, K3, Hpath. reflexivity.
      - unfold PutContent, bind. rewrite Hw, Hcopy, Hc.
        unfold ret. simpl. destruct (Close _ _). reflexivity. }
    split; [ | split; [ | split; [ | split ] ] ].
    + exact (io_Copy_open _ _ _ Ho Hcopy).
    + exact Hcancel.
    + intros ->. split; [ now apply Kn | ].
      destruct (writer_Flush (file fw2) (remote w2)) as [e r] eqn:Hfl.
      pose proof (Commit_open fw2 w2 Ho2 Hfl) as Hc.
      eexists. eexists. eexists. split; [ exact Hc | ]. split; [ | split ].
      * intros ->. reflexivity.
      * simpl. rewrite K1. reflexivity.
      * unfold PutContent, bind. rewrite Hw, Hcopy, Hc.
        unfold ret. simpl. destruct (Close _ _). reflexivity.
    + intros Hn. destruct cerr as [err | ].
      * now exists err.
      * exfalso. apply Hn. now apply Kn.
    + intros Hnil. destruct cerr as [err | ].
      * destruct (Hcancel err eq_refl) as (ec & fw3 & w3 & _ & _ & _ & Hp).
        rewrite Hp in Hnil. discriminate Hnil.
      * split; [ reflexivity | now apply Kn ].
Qed.



End DriverProperties.

Section Invariant.

Context {W : Type} {be : Backend W}.

(** A closed transaction rejects every operation: nothing changes. *)
Lemma closed_rejects (o : Op) (fw : fileWriter) (w : World W) :
  closed fw = true -> apply_op o fw w = (fw, w).
Proof.
  intros H. destruct o; simpl; unfold bind.
  - rewrite Write_closed by exact H. reflexivity.
  - rewrite Close_closed by exact H. reflexivity.
  - rewrite Commit_closed by exact H. reflexivity.
  - rewrite Cancel_closed by exact H. reflexivity.
Qed.

Lemma closed_is_final (ops : list Op) (fw : fileWriter) (w : World W) :
  closed fw = true -> run_ops ops fw w = (fw, w).
Proof.
  intros H. induction ops as [ | o ops IH]; simpl.
  - reflexivity.
  - unfold bind. rewrite closed_rejects by exact H. exact IH.
Qed.

(** [Commit] does look at the [cancelled] flag: a transaction that was
    cancelled and not committed is never committed afterwards. *)
Lemma cancelled_step (o : Op) (fw : fileWriter) (w : World W) :
  cancelled fw = true -> committed fw = false ->
  cancelled (fst (apply_op o fw w)) = true
  /\ committed (fst (apply_op o fw w)) = false.
Proof.
  intros Hc Hm.
  destruct (closed fw) eqn:Hcl.
  - rewrite closed_rejects by exact Hcl. auto.
  - destruct o; simpl; unfold bind.
    + rewrite Write_cancelled by assumption. auto.
    + destruct (writer_Flush (file fw) (remote w)) as [[e | ] r1] eqn:Hfl.
      * rewrite (Close_flush_fails fw w Hcl Hfl). auto.
      * destruct (writer_Close (file fw) r1) as [e2 r2] eqn:Hc2.
        rewrite (Close_flushed fw w Hcl Hfl Hc2). destruct e2; auto.
    + rewrite Commit_cancelled by assumption. auto.
    + destruct (writer_Close (file fw) (remote w)) as [ec r1] eqn:Hc2.
      destruct (client_Remove (client fw) (path fw) r1) as [er r2] eqn:Hrm.
      rewrite (Cancel_not_closed fw w Hcl Hc2 Hrm). auto.
Qed.

Lemma cancelled_never_committed (ops : list Op) (fw : fileWriter) (w : World W) :
  cancelled fw = true -> committed fw = false ->
  committed (fst (run_ops ops fw w)) = false.
Proof.
  revert fw w. induction ops as [ | o ops IH]; intros fw w Hc Hm; simpl.
  - exact Hm.
  - unfold bind. destruct (apply_op o fw w) as [fw1 w1] eqn:Hstep.
    destruct (cancelled_step o fw w Hc Hm) as [Hc1 Hm1].
    rewrite Hstep in Hc1, Hm1. simpl in Hc1, Hm1. now apply IH.
Qed.

(** C1. [Cancel] does not look at the [committed] flag.  From the state
    Open, a [Commit] whose flush succeeds followed by a [Cancel] leaves a
    transaction with both [committed] and [cancelled] set, and not
    closed: the second operation made the other terminal flag true. *)
Theorem Commit_then_Cancel_sets_both (fw : fileWriter) (w : World W) (r : W) :
  is_open fw = true ->
  writer_Flush (file fw) (remote w) = (None, r) ->
  let fw' := fst (run_ops [OpCommit; OpCancel] fw w) in
  committed fw' = true /\ cancelled fw' = true /\ closed fw' = false.
Proof.
  intros Ho Hfl. pose proof Ho as Hf. apply is_open_flags in Hf.
  destruct Hf as (H1 & H2 & H3).
  simpl. unfold bind. rewrite (Commit_open fw w Ho Hfl).
  unfold ret; simpl.
  destruct (writer_Close (file fw) r) as [ec r1] eqn:Hcl.
  destruct (client_Remove (client fw) (path fw) r1) as [er r2] eqn:Hrm.
  rewrite (@Cancel_not_closed _ _ (set_committed fw true) _ ec er r1 r2);
    simpl; auto.
Qed.

(** C2. [Cancel] refuses a closed transaction only.  After a [Commit]
    that succeeded it does not fail with "already committed": it closes
    the handle, removes the target path and returns what the remove
    answers.  After a [Cancel] it does not fail with "already cancelled":
    it closes and removes once more. *)
Theorem Cancel_runs_after_Commit_and_Cancel
        (fw : fileWriter) (w : World W) :
  is_open fw = true ->
  (forall fw1 w1 ec er r1 r2,
     Commit fw w = ((None, fw1), w1) ->
     writer_Close (file fw) (remote w1) = (ec, r1) ->
     client_Remove (client fw) (path fw) r1 = (er, r2) ->
     exists fw2 w2,
       Cancel fw1 w1 = ((er, fw2), w2)
       /\ committed fw2 = true /\ cancelled fw2 = true
       /\ trace w2 = trace w1 ++ [EvClose (file fw); EvRemove (client fw) (path fw)])
  /\ (forall e fw1 w1 ec er r1 r2,
        Cancel fw w = ((e, fw1), w1) ->
        writer_Close (file fw) (remote w1) = (ec, r1) ->
        client_Remove (client fw) (path fw) r1 = (er, r2) ->
        exists fw2 w2,
          Cancel fw1 w1 = ((er, fw2), w2)
          /\ trace w2 = trace w1 ++ [EvClose (file fw); EvRemove (client fw) (path fw)]).
Proof.
  intros Ho. pose proof Ho as Hf. apply is_open_flags in Hf.
  destruct Hf as (H1 & H2 & H3). split.
  - intros fw1 w1 ec er r1 r2 Hcommit Hcl Hrm.
    destruct (writer_Flush (file fw) (remote w)) as [e r] eqn:Hfl.
    rewrite (Commit_open fw w Ho Hfl) in Hcommit.
    destruct e; inversion Hcommit; subst; clear Hcommit.
    eexists. eexists. split.
    + apply (@Cancel_not_closed _ _ (set_committed fw true) _ ec er r1 r2);
        simpl; auto.
    + simpl. auto.
  - intros e fw1 w1 ec er r1 r2 Hcancel Hcl Hrm.
    destruct (writer_Close (file fw) (remote w)) as [ec0 r01] eqn:Hcl0.
    destruct (client_Remove (client fw) (path fw) r01) as [er0 r02] eqn:Hrm0.
    rewrite (Cancel_not_closed fw w H1 Hcl0 Hrm0) in Hcancel.
    inversion Hcancel; subst; clear Hcancel.
    eexists. eexists. split.
    + apply (@Cancel_not_closed _ _ (set_cancelled fw true) _ ec er r1 r2);
        simpl; auto.
    + simpl. auto.
Qed.

End Invariant.

(** * Concrete runs on the scripted remote side *)

(** Commit, then Cancel, all calls succeeding: both flags end up set. *)
Lemma Commit_then_Cancel_sets_both_witness :
  let fw' := fst (run_ops [OpCommit; OpCancel] someWriter (start [])) in
  committed fw' = true /\ cancelled fw' = true /\ closed fw' = false.
Proof.
  apply (@Commit_then_Cancel_sets_both Script Scripted someWriter (start []) []);
    reflexivity.
Defined.

(** Commit, then Cancel: the Cancel closes and removes; a second Cancel
    closes and removes again. *)
Lemma Cancel_runs_after_Commit_and_Cancel_witness :
  (exists fw2 w2,
     Cancel (set_committed someWriter true)
            {| remote := []; trace := [EvFlush 7%nat] |} = ((None, fw2), w2)
     /\ committed fw2 = true /\ cancelled fw2 = true
     /\ trace w2 = [EvFlush 7%nat; EvClose 7%nat; EvRemove 1%nat "/registry/blob"])
  /\ (exists fw2 w2,
        Cancel (set_cancelled someWriter true)
               {| remote := [];
                  trace := [EvClose 7%nat; EvRemove 1%nat "/registry/blob"] |}
        = ((None, fw2), w2)
        /\ trace w2 = [EvClose 7%nat; EvRemove 1%nat "/registry/blob";
                       EvClose 7%nat; EvRemove 1%nat "/registry/blob"]).
Proof.
  destruct (@Cancel_runs_after_Commit_and_Cancel Script Scripted someWriter (start []) eq_refl)
    as [Hcommit Hcancel].
  split.
  - exact (Hcommit (set_committed someWriter true)
                   {| remote := []; trace := [EvFlush 7%nat] |}
                   None None [] [] eq_refl eq_refl eq_refl).
  - exact (Hcancel None (set_cancelled someWriter true)
                   {| remote := [];
                      trace := [EvClose 7%nat; EvRemove 1%nat "/registry/blob"] |}
                   None None [] [] eq_refl eq_refl eq_refl).
Defined.

(** Write on a closed, a committed, a cancelled and an Open transaction;
    the transport of the last takes two of the three bytes. *)
Lemma Write_only_in_Open_witness :
  Write (set_closed someWriter true) abc (start [])
  = ((0, Some (Errorf "already closed"), set_closed someWriter true), start [])
  /\ Write (set_committed someWriter true) abc (start [])
     = ((0, Some (Errorf "already committed"), set_committed someWriter true), start [])
  /\ Write (set_cancelled someWriter true) abc (start [])
     = ((0, Some (Errorf "already cancelled"), set_cancelled someWriter true), start [])
  /\ exists fw',
      Write someWriter abc (start [Value 2 None])
      = ((2, None, fw'), {| remote := []; trace := [EvWrite 7%nat abc] |})
      /\ Size fw' = 2.
Proof.
  split; [ | split; [ | split ] ].
  - apply (proj1 (proj2 (@Write_only_in_Open Script Scripted (set_closed someWriter true)
                                              abc (start [])))).
    reflexivity.
  - apply (proj1 (proj2 (proj2 (@Write_only_in_Open Script Scripted (set_committed someWriter true)
                                                     abc (start []))))); reflexivity.
  - apply (proj1 (proj2 (proj2 (proj2 (@Write_only_in_Open _ _
             (set_cancelled someWriter true) abc (start [])))))); reflexivity.
  - assert (Hanswer : writer_Write (file someWriter) abc
                                   (remote (start [Value 2 None]))
                      = ((2, None), [])) by reflexivity.
    destruct (proj2 (proj2 (proj2 (proj2 (@Write_only_in_Open Script Scripted someWriter abc
                (start [Value 2 None]))))) eq_refl 2 None [] Hanswer)
      as (fw' & Hw & _ & Hfit & _).
    exists fw'. split; [ exact Hw | ].
    apply Hfit. unfold int64_min, int64_max. simpl. lia.
Defined.

(** Commit on an Open transaction, the flush succeeding, and once more. *)
Lemma Commit_flushes_once_witness :
  exists fw1 w1,
    Commit someWriter (start []) = ((None, fw1), w1)
    /\ trace w1 = [EvFlush 7%nat]
    /\ committed fw1 = true /\ closed fw1 = false
    /\ Commit fw1 w1 = ((Some (Errorf "already committed"), fw1), w1).
Proof.
  destruct (proj1 (@Commit_flushes_once Script Scripted someWriter (start []) eq_refl)
                  [] eq_refl)
    as (fw1 & w1 & H1 & H2 & _ & H3 & H4 & _ & H5).
  exists fw1, w1. repeat split; assumption.
Defined.

(** Close on an Open transaction, flush and close succeeding, and once
    more. *)
Lemma Close_flushes_then_closes_witness :
  exists fw1 w1,
    Close someWriter (start []) = ((None, fw1), w1)
    /\ trace w1 = [EvFlush 7%nat; EvClose 7%nat]
    /\ remote w1 = []
    /\ closed fw1 = true /\ committed fw1 = false /\ cancelled fw1 = false
    /\ Close fw1 w1 = ((Some (Errorf "already closed"), fw1), w1).
Proof.
  exact (@Close_flushes_then_closes Script Scripted someWriter (start []) [] []
           eq_refl eq_refl eq_refl).
Defined.

(** A failing flush in Close and in Commit, a failing close in Close. *)
Lemma failed_Close_Commit_keep_state_witness :
  (exists w1, Close someWriter (start [Fail flushError])
              = ((Some flushError, someWriter), w1)
              /\ trace w1 = [EvFlush 7%nat])
  /\ (exists w1, Close someWriter (start [Succeed; Fail closeError])
                 = ((Some closeError, someWriter), w1)
                 /\ trace w1 = [EvFlush 7%nat; EvClose 7%nat])
  /\ (exists w1, Commit someWriter (start [Fail flushError])
                 = ((Some flushError, someWriter), w1)
                 /\ trace w1 = [EvFlush 7%nat]).
Proof.
  split; [ | split ].
  - exact (proj1 (@failed_Close_Commit_keep_state Script Scripted someWriter
                    (start [Fail flushError]) eq_refl)
                 flushError [] eq_refl).
  - exact (proj1 (proj2 (@failed_Close_Commit_keep_state Script Scripted someWriter
                           (start [Succeed; Fail closeError]) eq_refl))
                 closeError [Fail closeError] [] eq_refl eq_refl).
  - exact (proj2 (proj2 (@failed_Close_Commit_keep_state Script Scripted someWriter
                           (start [Fail flushError]) eq_refl))
                 flushError [] eq_refl).
Defined.

(** Cancel when the close of the handle and the remove both fail. *)
Lemma Cancel_returns_remove_result_witness :
  exists fw1 w1,
    Cancel someWriter (start [Fail closeError; Fail removeError])
    = ((Some removeError, fw1), w1)
    /\ cancelled fw1 = true
    /\ trace w1 = [EvClose 7%nat; EvRemove 1%nat "/registry/blob"]
    /\ remote w1 = [].
Proof.
  exact (@Cancel_returns_remove_result Script Scripted someWriter
           (start [Fail closeError; Fail removeError])
           (Some closeError) (Some removeError) [Fail removeError] []
           eq_refl eq_refl eq_refl).
Defined.

Lemma Writer_on_existing_file_witness :
  (exists fw w',
     Writer someDriver "blob" true (start appendScript) = (Ok fw, w')
     /\ Size fw = 10 /\ file fw = 7%nat /\ is_open fw = true
     /\ trace w' = [EvNew "nn:8020"; EvMkdirAll 1%nat "/registry" 511;
                    EvStat 1%nat "/registry/blob"; EvAppend 1%nat "/registry/blob"])
  /\ (exists fw w',
        Writer someDriver "blob" false (start truncateScript) = (Ok fw, w')
        /\ Size fw = 0 /\ file fw = 7%nat /\ is_open fw = true
        /\ trace w' = [EvNew "nn:8020"; EvMkdirAll 1%nat "/registry" 511;
                       EvStat 1%nat "/registry/blob"; EvRemove 1%nat "/registry/blob";
                       EvCreate 1%nat "/registry/blob"]).
Proof.
  split.
  - destruct (proj1 (@Writer_on_existing_file Script Scripted SlashPaths
                       someDriver "blob" (start appendScript) 1%nat
                       (mkFileInfo false 10 0)
                       [Succeed; Value 10 None; Value 7 None]
                       [Value 10 None; Value 7 None] [Value 7 None]
                       eq_refl eq_refl eq_refl)
                    7%nat [] eq_refl)
      as (fw & w' & H1 & H2 & H3 & _ & H4 & _ & H5).
    exists fw, w'. repeat split; assumption.
  - destruct (proj2 (@Writer_on_existing_file Script Scripted SlashPaths
                       someDriver "blob" (start truncateScript) 1%nat
                       (mkFileInfo false 10 0)
                       [Succeed; Value 10 None; Succeed; Value 7 None]
                       [Value 10 None; Succeed; Value 7 None]
                       [Succeed; Value 7 None]
                       eq_refl eq_refl eq_refl)
                    7%nat [Value 7 None] [] eq_refl eq_refl)
      as (fw & w' & H1 & H2 & H3 & _ & H4 & _ & H5).
    exists fw, w'. repeat split; assumption.
Defined.

(** PutContent of three bytes of which the transport takes two. *)
Lemma PutContent_cancels_or_commits_witness :
  exists fw3 w3,
    cancelled fw3 = true
    /\ trace w3 = [EvNew "nn:8020"; EvMkdirAll 1%nat "/registry" 511;
                   EvStat 1%nat "/registry/blob"; EvRemove 1%nat "/registry/blob";
                   EvCreate 1%nat "/registry/blob"; EvWrite 7%nat abc;
                   EvClose 7%nat; EvRemove 1%nat "/registry/blob"]
    /\ PutContent someDriver "blob" abc (start shortWriteScript)
       = (Some ErrShortWrite, snd (Close fw3 w3)).
Proof.
  assert (Hwriter :
            Writer someDriver "blob" false (start shortWriteScript)
            = (Ok (newWriter 1%nat "/registry/blob" 7%nat 0),
               {| remote := [Value 2 None];
                  trace := [EvNew "nn:8020"; EvMkdirAll 1%nat "/registry" 511;
                            EvStat 1%nat "/registry/blob";
                            EvRemove 1%nat "/registry/blob";
                            EvCreate 1%nat "/registry/blob"] |}))
    by reflexivity.
  assert (Hcopy :
            io_Copy (newWriter 1%nat "/registry/blob" 7%nat 0) abc
                    {| remote := [Value 2 None];
                       trace := [EvNew "nn:8020"; EvMkdirAll 1%nat "/registry" 511;
                                 EvStat 1%nat "/registry/blob";
                                 EvRemove 1%nat "/registry/blob";
                                 EvCreate 1%nat "/registry/blob"] |}
            = ((2, Some ErrShortWrite,
                set_size (newWriter 1%nat "/registry/blob" 7%nat 0) 2),
               {| remote := [];
                  trace := [EvNew "nn:8020"; EvMkdirAll 1%nat "/registry" 511;
                            EvStat 1%nat "/registry/blob";
                            EvRemove 1%nat "/registry/blob";
                            EvCreate 1%nat "/registry/blob";
                            EvWrite 7%nat abc] |}))
    by reflexivity.
  destruct (proj2 (@PutContent_cancels_or_commits Script Scripted SlashPaths
                     someDriver "blob" abc (start shortWriteScript))
                  _ _ _ _ _ _ Hwriter Hcopy)
    as (_ & Hfail & _).
  destruct (Hfail ErrShortWrite eq_refl) as (ec & fw3 & w3 & _ & H1 & H2 & H3).
  exists fw3, w3. repeat split; assumption.
Defined.



(** * Invariants of a write transaction over any sequence of operations *)

Section TransactionRuns.

Context {W : Type} {be : Backend W}.

(** What one operation can do to a transaction and to the trace. *)
Lemma apply_op_shape (o : Op) (fw : fileWriter) (w : World W) :
  exists evs,
    trace (snd (apply_op o fw w)) = trace w ++ evs
    /\ Forall (own_event fw) evs
    /\ (fst (apply_op o fw w) = fw
        \/ (exists n, fst (apply_op o fw w) = set_size fw n)
        \/ fst (apply_op o fw w) = set_closed fw true
        \/ fst (apply_op o fw w) = set_committed fw true
        \/ fst (apply_op o fw w) = set_cancelled fw true).
Proof.
  assert (Hnone : forall x : fileWriter * World W,
             x = (fw, w) ->
             exists evs,
               trace (snd x) = trace w ++ evs
               /\ Forall (own_event fw) evs
               /\ (fst x = fw
                   \/ (exists n, fst x = set_size fw n)
                   \/ fst x = set_closed fw true
                   \/ fst x = set_committed fw true
                   \/ fst x = set_cancelled fw true)).
  { intros x ->. exists []. rewrite app_nil_r. simpl. auto. }
  destruct o as [p | | | ]; simpl; unfold bind.
  - destruct (is_open fw) eqn:Ho.
    + destruct (writer_Write (file fw) p (remote w)) as [[n e] r] eqn:Hw.
      rewrite (Write_open fw p w Ho Hw). simpl.
      exists [EvWrite (file fw) p]. repeat split.
      * repeat constructor.
      * right. left. eauto.
    + apply Hnone. unfold is_open in Ho.
      destruct (closed fw) eqn:H1.
      { now rewrite Write_closed. }
      destruct (committed fw) eqn:H2.
      { now rewrite Write_committed. }
      destruct (cancelled fw) eqn:H3.
      { now rewrite Write_cancelled. }
      discriminate Ho.
  - destruct (closed fw) eqn:H1.
    + apply Hnone. now rewrite Close_closed.
    + destruct (writer_Flush (file fw) (remote w)) as [[e | ] r1] eqn:Hfl.
      * rewrite (Close_flush_fails fw w H1 Hfl). simpl.
        exists [EvFlush (file fw)]. repeat split; [ repeat constructor | auto ].
      * destruct (writer_Close (file fw) r1) as [e2 r2] eqn:Hcl.
        rewrite (Close_flushed fw w H1 Hfl Hcl). simpl.
        exists [EvFlush (file fw); EvClose (file fw)].
        repeat split; [ repeat constructor | destruct e2; auto ].
  - destruct (is_open fw) eqn:Ho.
    + destruct (writer_Flush (file fw) (remote w)) as [e r] eqn:Hfl.
      rewrite (Commit_open fw w Ho Hfl). simpl.
      exists [EvFlush (file fw)].
      repeat split; [ repeat constructor | destruct e; auto ].
    + apply Hnone. unfold is_open in Ho.
      destruct (closed fw) eqn:H1.
      { now rewrite Commit_closed. }
      destruct (committed fw) eqn:H2.
      { now rewrite Commit_committed. }
      destruct (cancelled fw) eqn:H3.
      { now rewrite Commit_cancelled. }
      discriminate Ho.
  - destruct (closed fw) eqn:H1.
    + apply Hnone. now rewrite Cancel_closed.
    + destruct (writer_Close (file fw) (remote w)) as [ec r1] eqn:Hcl.
      destruct (client_Remove (client fw) (path fw) r1) as [er r2] eqn:Hrm.
      rewrite (Cancel_not_closed fw w H1 Hcl Hrm). simpl.
      exists [EvClose (file fw); EvRemove (client fw) (path fw)].
      repeat split; [ repeat constructor; simpl; auto | auto 6 ].
Qed.

(** The five shapes keep the client, the handle and the path, and clear no
    flag. *)
Lemma shape_keeps (fw fw' : fileWriter) :
  fw' = fw
  \/ (exists n, fw' = set_size fw n)
  \/ fw' = set_closed fw true
  \/ fw' = set_committed fw true
  \/ fw' = set_cancelled fw true ->
  client fw' = client fw /\ file fw' = file fw /\ path fw' = path fw
  /\ (closed fw = true -> closed fw' = true)
  /\ (committed fw = true -> committed fw' = true)
  /\ (cancelled fw = true -> cancelled fw' = true).
Proof.
  intros [-> | [[n ->] | [-> | [-> | ->]]]]; simpl; auto 10.
Qed.

(** X1. No operation ever clears a flag: over any sequence of operations a
    transaction that is closed stays closed, one that is committed stays
    committed, one that is cancelled stays cancelled. *)
Theorem flags_never_cleared (ops : list Op) (fw : fileWriter) (w : World W) :
  (closed fw = true -> closed (fst (run_ops ops fw w)) = true)
  /\ (committed fw = true -> committed (fst (run_ops ops fw w)) = true)
  /\ (cancelled fw = true -> cancelled (fst (run_ops ops fw w)) = true).
Proof.
  revert fw w. induction ops as [ | o ops IH]; intros fw w; simpl.
  - auto.
  - unfold bind. destruct (apply_op_shape o fw w) as (evs & _ & _ & Hshape).
    destruct (apply_op o fw w) as [fw1 w1]. simpl in Hshape.
    destruct (shape_keeps Hshape) as (_ & _ & _ & K1 & K2 & K3).
    destruct (IH fw1 w1) as (I1 & I2 & I3). auto.
Qed.

(** X2. Over any sequence of operations a transaction keeps the client, the
    transport handle and the target path it was made with. *)
Theorem transaction_keeps_its_target (ops : list Op) (fw : fileWriter) (w : World W) :
  client (fst (run_ops ops fw w)) = client fw
  /\ file (fst (run_ops ops fw w)) = file fw
  /\ path (fst (run_ops ops fw w)) = path fw.
Proof.
  revert fw w. induction ops as [ | o ops IH]; intros fw w; simpl.
  - auto.
  - unfold bind. destruct (apply_op_shape o fw w) as (evs & _ & _ & Hshape).
    destruct (apply_op o fw w) as [fw1 w1]. simpl in Hshape.
    destruct (shape_keeps Hshape) as (K1 & K2 & K3 & _).
    destruct (IH fw1 w1) as (I1 & I2 & I3).
    rewrite I1, I2, I3. auto.
Qed.

Lemma own_event_same (fw fw1 : fileWriter) (ev : Event) :
  client fw1 = client fw -> file fw1 = file fw -> path fw1 = path fw ->
  own_event fw1 ev -> own_event fw ev.
Proof.
  intros K1 K2 K3. destruct ev; simpl; rewrite ?K1, ?K2, ?K3; auto.
Qed.

(** X3. A transaction calls nothing but its own: whatever the sequence of
    operations, the trace only grows, and every call it grows by is a
    write, a flush or a close on the transaction's handle, or the remove of
    the transaction's path by its client. *)
Theorem transaction_calls_only_its_own
        (ops : list Op) (fw : fileWriter) (w : World W) :
  exists evs,
    trace (snd (run_ops ops fw w)) = trace w ++ evs
    /\ Forall (own_event fw) evs.
Proof.
  revert fw w. induction ops as [ | o ops IH]; intros fw w; simpl.
  - exists []. rewrite app_nil_r. auto.
  - unfold bind. destruct (apply_op_shape o fw w) as (evs & Ht & Hown & Hshape).
    destruct (apply_op o fw w) as [fw1 w1]. simpl in Ht, Hshape.
    destruct (shape_keeps Hshape) as (K1 & K2 & K3 & _).
    destruct (IH fw1 w1) as (evs1 & Ht1 & Hown1).
    exists (evs ++ evs1). split.
    + rewrite Ht1, Ht. now rewrite app_assoc.
    + apply Forall_app. split; [ exact Hown | ].
      eapply Forall_impl; [ | exact Hown1 ].
      intros ev. now apply own_event_same.
Qed.

End TransactionRuns.

(** A [Close] that returns nil has set the [closed] flag. *)
Lemma Close_nil_closed {W : Type} {be : Backend W}
      (fw fw1 : fileWriter) (w w1 : World W) :
  Close fw w = ((None, fw1), w1) -> closed fw1 = true.
Proof.
  intros H. destruct (closed fw) eqn:H1.
  - rewrite Close_closed in H by exact H1. discriminate H.
  - destruct (writer_Flush (file fw) (remote w)) as [[e | ] r1] eqn:Hfl.
    + rewrite (Close_flush_fails fw w H1 Hfl) in H. discriminate H.
    + destruct (writer_Close (file fw) r1) as [e2 r2] eqn:Hcl.
      rewrite (Close_flushed fw w H1 Hfl Hcl) in H.
      destruct e2; inversion H; subst. reflexivity.
Qed.

(** X4. Once [Close] has returned nil the transaction is dead: whatever
    operations follow, in whatever number, the transaction stays as it is
    and not one call reaches the transport. *)
Theorem nothing_happens_after_Close {W : Type} {be : Backend W}
        (ops : list Op) (fw fw1 : fileWriter) (w w1 : World W) :
  Close fw w = ((None, fw1), w1) ->
  run_ops ops fw1 w1 = (fw1, w1).
Proof.
  intros H. apply closed_is_final. exact (Close_nil_closed _ _ H).
Qed.

(** X5. Once [Cancel] has run on a transaction that was neither closed nor
    committed, no later sequence of operations commits it, whatever the
    transport answers. *)
Theorem no_Commit_after_Cancel {W : Type} {be : Backend W}
        (ops : list Op) (fw fw1 : fileWriter) (w w1 : World W) (e : option error) :
  closed fw = false -> committed fw = false ->
  Cancel fw w = ((e, fw1), w1) ->
  committed (fst (run_ops ops fw1 w1)) = false.
Proof.
  intros H1 H2 H.
  destruct (writer_Close (file fw) (remote w)) as [ec r1] eqn:Hcl.
  destruct (client_Remove (client fw) (path fw) r1) as [er r2] eqn:Hrm.
  rewrite (Cancel_not_closed fw w H1 Hcl Hrm) in H.
  inversion H; subst. apply cancelled_never_committed; simpl; auto.
Qed.

(** * Writer, Reader and PutContent on the other paths *)

Section DriverPaths.

Context {W : Type} {be : Backend W} {pl : PathLib}.

(** Closes a goal on the calls of a run that has been run to its end. *)
Ltac done_with_trace :=
  simpl; eexists;
  (split; [ reflexivity | split; intros Hmode; try discriminate Hmode; reflexivity ]).

(** X6. Writer on a path where no file is ([Stat] fails, and the failure is
    a not-exist one): nothing is removed.  In append mode the handle comes
    from [Append], in truncate mode from [Create]; either way the
    transaction starts Open with the size 0. *)
Theorem Writer_on_missing_file
        (d : driver) (subPath : string) (w : World W)
        (c : Client) (e : error) (r1 r2 r3 : W) :
  let fp := fullPath d subPath in
  hdfs_New (nameNode (config d)) (remote w) = (Ok c, r1) ->
  client_MkdirAll c (path_Dir fp) 511 r1 = (None, r2) ->
  client_Stat c fp r2 = (Err e, r3) ->
  os_IsNotExist e = true ->
  (forall h r4,
     client_Append c fp r3 = (Ok h, r4) ->
     Writer d subPath true w =
     (Ok (newWriter c fp h 0),
      {| remote := r4;
         trace := trace w ++ [EvNew (nameNode (config d));
                              EvMkdirAll c (path_Dir fp) 511;
                              EvStat c fp; EvAppend c fp] |}))
  /\ (forall h r4,
        client_Create c fp r3 = (Ok h, r4) ->
        Writer d subPath false w =
        (Ok (newWriter c fp h 0),
         {| remote := r4;
            trace := trace w ++ [EvNew (nameNode (config d));
                                 EvMkdirAll c (path_Dir fp) 511;
                                 EvStat c fp; EvCreate c fp] |})).
Proof.
  intros fp Hnew Hmk Hst Hne. split.
  - intros h r4 Hap. unfold Writer, newHdfsClient. fold fp.
    run_calls. rewrite Hne. run_calls. reflexivity.
  - intros h r4 Hcr. unfold Writer, newHdfsClient. fold fp.
    run_calls. rewrite Hne. run_calls. reflexivity.
Qed.

(** X7. Whatever the remote side answers, Writer in append mode issues no
    remove and no create, and Writer in truncate mode issues no append. *)
Theorem Writer_mode_calls
        (d : driver) (subPath : string) (append : bool) (w : World W) :
  exists evs,
    trace (snd (Writer d subPath append w)) = trace w ++ evs
    /\ (append = true ->
        forallb (fun ev => negb (is_remove ev || is_create ev)) evs = true)
    /\ (append = false ->
        forallb (fun ev => negb (is_append ev)) evs = true).
Proof.
  unfold Writer, newHdfsClient.
  destruct (hdfs_New (nameNode (config d)) (remote w)) as [[c | e] r1] eqn:Hnew;
    run_calls; [ | done_with_trace ].
  destruct (client_MkdirAll c (path_Dir (fullPath d subPath)) 511 r1)
    as [[e | ] r2] eqn:Hmk; run_calls; [ done_with_trace | ].
  destruct (client_Stat c (fullPath d subPath) r2) as [[info | e] r3] eqn:Hst;
    run_calls.
  - destruct append.
    + destruct (client_Append c (fullPath d subPath) r3) as [[h | e] r4] eqn:Hap;
        run_calls; done_with_trace.
    + destruct (client_Remove c (fullPath d subPath) r3) as [[e | ] r4] eqn:Hrm;
        run_calls; [ done_with_trace | ].
      destruct (client_Create c (fullPath d subPath) r4) as [[h | e] r5] eqn:Hcr;
        run_calls; done_with_trace.
  - destruct (os_IsNotExist e); simpl; [ | done_with_trace ].
    destruct append.
    + destruct (client_Append c (fullPath d subPath) r3) as [[h | e0] r4] eqn:Hap;
        run_calls; done_with_trace.
    + destruct (client_Create c (fullPath d subPath) r3) as [[h | e0] r4] eqn:Hcr;
        run_calls; done_with_trace.
Qed.

(** X8. Writer gives up at the first call that fails, returns the error of
    that call as it is, and calls nothing after it: a client that cannot be
    made, a parent directory that cannot be made, a [Stat] that fails
    otherwise than by a missing file, and, in truncate mode, a remove of the
    old file that fails (no [Create] then follows). *)
Theorem Writer_stops_at_first_failure
        (d : driver) (subPath : string) (append : bool) (w : World W) :
  let fp := fullPath d subPath in
  let nn := nameNode (config d) in
  (forall e r1,
     hdfs_New nn (remote w) = (Err e, r1) ->
     Writer d subPath append w =
     (Err e, {| remote := r1; trace := trace w ++ [EvNew nn] |}))
  /\ (forall c e r1 r2,
        hdfs_New nn (remote w) = (Ok c, r1) ->
        client_MkdirAll c (path_Dir fp) 511 r1 = (Some e, r2) ->
        Writer d subPath append w =
        (Err e, {| remote := r2;
                   trace := trace w ++ [EvNew nn; EvMkdirAll c (path_Dir fp) 511] |}))
  /\ (forall c e r1 r2 r3,
        hdfs_New nn (remote w) = (Ok c, r1) ->
        client_MkdirAll c (path_Dir fp) 511 r1 = (None, r2) ->
        client_Stat c fp r2 = (Err e, r3) ->
        os_IsNotExist e = false ->
        Writer d subPath append w =
        (Err e, {| remote := r3;
                   trace := trace w ++ [EvNew nn; EvMkdirAll c (path_Dir fp) 511;
                                        EvStat c fp] |}))
  /\ (forall c info e r1 r2 r3 r4,
        append = false ->
        hdfs_New nn (remote w) = (Ok c, r1) ->
        client_MkdirAll c (path_Dir fp) 511 r1 = (None, r2) ->
        client_Stat c fp r2 = (Ok info, r3) ->
        client_Remove c fp r3 = (Some e, r4) ->
        Writer d subPath append w =
        (Err e, {| remote := r4;
                   trace := trace w ++ [EvNew nn; EvMkdirAll c (path_Dir fp) 511;
                                        EvStat c fp; EvRemove c fp] |})).
Proof.
  intros fp nn. repeat split.
  - intros e r1 Hnew. unfold Writer, newHdfsClient. fold fp nn.
    run_calls. reflexivity.
  - intros c e r1 r2 Hnew Hmk. unfold Writer, newHdfsClient. fold fp nn.
    run_calls. reflexivity.
  - intros c e r1 r2 r3 Hnew Hmk Hst Hne. unfold Writer, newHdfsClient.
    fold fp nn. run_calls. rewrite Hne. run_calls. reflexivity.
  - intros c info e r1 r2 r3 r4 -> Hnew Hmk Hst Hrm.
    unfold Writer, newHdfsClient. fold fp nn. run_calls. reflexivity.
Qed.

(** X9. Reader either hands the handle it opened to the caller or closes
    it.  When it returns a handle, that is the handle of [Open], the seek
    succeeded and reached the offset, and the handle is still open; when it
    returns an error after [Open] succeeded, the close of that handle is the
    last call it made. *)
Theorem Reader_returns_or_closes
        (d : driver) (subPath : string) (offset : Z) (w w' : World W)
        (c : Client) (h : FileReaderH) (r0 r1 : W)
        (res : result FileReaderH) :
  let fp := fullPath d subPath in
  hdfs_New (nameNode (config d)) (remote w) = (Ok c, r0) ->
  client_Open c fp r0 = (Ok h, r1) ->
  Reader d subPath offset w = (res, w') ->
  match res with
  | Ok h' =>
    h' = h
    /\ (exists pos, reader_Seek h offset io_SeekStart r1 = ((pos, None), remote w')
                    /\ offset <= pos)
    /\ trace w' = trace w ++ [EvNew (nameNode (config d)); EvOpen c fp;
                              EvSeek h offset io_SeekStart]
  | Err _ =>
    trace w' = trace w ++ [EvNew (nameNode (config d)); EvOpen c fp;
                           EvSeek h offset io_SeekStart; EvReaderClose h]
  end.
Proof.
  intros fp Hnew Hop H.
  destruct (reader_Seek h offset io_SeekStart r1) as [[pos e] r2] eqn:Hsk.
  destruct (reader_Close h r2) as [ec r3] eqn:Hcl.
  unfold Reader, newHdfsClient in H. fold fp in H. revert H. run_calls.
  destruct e as [e | ].
  - run_calls. intros H. inversion H; subst. reflexivity.
  - destruct (pos <? offset) eqn:Hlt.
    + run_calls. intros H. inversion H; subst. reflexivity.
    + intros H. inversion H; subst. simpl. repeat split.
      exists pos. split; [ reflexivity | ]. apply Z.ltb_ge in Hlt. exact Hlt.
Qed.

(** X10. PutContent, when the copy and the flush of [Commit] succeed,
    returns nil whatever the deferred [Close] meets: a flush or a close of
    the handle that fails there is reported to nobody.  After the copy the
    handle is flushed twice (by [Commit], by [Close]) and closed if the
    second flush succeeds. *)
Theorem PutContent_drops_Close_failure
        (d : driver) (subPath : string) (contents : list byte)
        (w w1 w2 : World W) (writer fw2 : fileWriter) (n : Z)
        (e1 e2 : option error) (r3 r4 r5 : W) :
  Writer d subPath false w = (Ok writer, w1) ->
  io_Copy writer contents w1 = ((n, None, fw2), w2) ->
  writer_Flush (file writer) (remote w2) = (None, r3) ->
  writer_Flush (file writer) r3 = (e1, r4) ->
  writer_Close (file writer) r4 = (e2, r5) ->
  PutContent d subPath contents w =
  (None,
   {| remote := match e1 with None => r5 | Some _ => r4 end;
      trace := trace w2 ++ EvFlush (file writer) :: EvFlush (file writer)
                        :: match e1 with
                           | None => [EvClose (file writer)]
                           | Some _ => []
                           end |}).
Proof.
  intros Hw Hcopy Hf1 Hf2 Hcl.
  destruct (Writer_fresh _ _ _ _ Hw) as [Ho _].
  destruct (io_Copy_keeps _ _ _ Hcopy) as (K1 & K2 & K3 & K4 & K5 & K6 & _).
  pose proof Ho as Hflags. apply is_open_flags in Hflags.
  destruct Hflags as (F1 & F2 & F3).
  assert (Ho2 : is_open fw2 = true).
  { apply is_open_flags. rewrite K4, K5, K6. auto. }
  rewrite <- K1 in Hf1, Hf2, Hcl.
  unfold PutContent, bind. rewrite Hw, Hcopy.
  rewrite (Commit_open fw2 w2 Ho2 Hf1). unfold ret. simpl.
  assert (Hc : closed (set_committed fw2 true) = false)
    by (simpl; rewrite K4; exact F1).
  destruct e1 as [e1 | ].
  - rewrite (Close_flush_fails (set_committed fw2 true) (mkWorld r3 _) Hc Hf2).
    simpl. rewrite ?K1. tidy_trace. reflexivity.
  - rewrite (Close_flushed (set_committed fw2 true) (mkWorld r3 _) Hc Hf2 Hcl).
    simpl. rewrite ?K1. tidy_trace. reflexivity.
Qed.

(** X11. PutContent, when the copy fails, returns the error of the copy
    whatever [Cancel] and the deferred [Close] meet; the answer of the
    remove is dropped.  [Cancel] closes the handle and [Close], which
    [Cancel] does not stop, then flushes the handle that is already closed,
    and closes it a second time if that flush succeeds. *)
Theorem PutContent_failure_closes_twice
        (d : driver) (subPath : string) (contents : list byte)
        (w w1 w2 : World W) (writer fw2 : fileWriter) (n : Z) (err : error)
        (ec er e1 e2 : option error) (r3 r4 r5 r6 : W) :
  Writer d subPath false w = (Ok writer, w1) ->
  io_Copy writer contents w1 = ((n, Some err, fw2), w2) ->
  writer_Close (file writer) (remote w2) = (ec, r3) ->
  client_Remove (client writer) (fullPath d subPath) r3 = (er, r4) ->
  writer_Flush (file writer) r4 = (e1, r5) ->
  writer_Close (file writer) r5 = (e2, r6) ->
  PutContent d subPath contents w =
  (Some err,
   {| remote := match e1 with None => r6 | Some _ => r5 end;
      trace := trace w2 ++ EvClose (file writer)
                        :: EvRemove (client writer) (fullPath d subPath)
                        :: EvFlush (file writer)
                        :: match e1 with
                           | None => [EvClose (file writer)]
                           | Some _ => []
                           end |}).
Proof.
  intros Hw Hcopy Hc1 Hrm Hfl Hc2.
  destruct (Writer_fresh _ _ _ _ Hw) as [Ho Hpath].
  destruct (io_Copy_keeps _ _ _ Hcopy) as (K1 & K2 & K3 & K4 & K5 & K6 & _).
  pose proof Ho as Hflags. apply is_open_flags in Hflags.
  destruct Hflags as (F1 & F2 & F3).
  assert (Hnc : closed fw2 = false) by (rewrite K4; exact F1).
  rewrite <- Hpath, <- K3 in Hrm. rewrite <- K1 in Hc1, Hfl, Hc2.
  rewrite <- K2 in Hrm.
  unfold PutContent, bind. rewrite Hw, Hcopy.
  rewrite (Cancel_not_closed fw2 w2 Hnc Hc1 Hrm). unfold ret. simpl.
  assert (Hc : closed (set_cancelled fw2 true) = false) by (simpl; exact Hnc).
  destruct e1 as [e1 | ].
  - rewrite (Close_flush_fails (set_cancelled fw2 true) (mkWorld r4 _) Hc Hfl).
    simpl. rewrite ?K1, ?K2, ?K3, ?Hpath. tidy_trace. reflexivity.
  - rewrite (Close_flushed (set_cancelled fw2 true) (mkWorld r4 _) Hc Hfl Hc2).
    simpl. rewrite ?K1, ?K2, ?K3, ?Hpath. tidy_trace. reflexivity.
Qed.

End DriverPaths.

(** * GetContent, Stat, List, Move and Delete *)

Section DriverRestProperties.

Context {W : Type} {be : Backend W} {bf : BackendFiles W} {pl : PathLib}.

(** X12. GetContent passes on the failure of [Reader] and does nothing
    more; for a path that is absent this is [PathNotFoundError] with the
    full path, the root included.  When [Reader] gives a handle, GetContent
    closes it before it returns, whether reading succeeded or not, and
    drops what the close answers: the result is the bytes read, or the
    error of the read. *)
Theorem GetContent_reads_then_closes
        (d : driver) (path : string) (w : World W) :
  (forall err w1,
     Reader d path 0 w = (Err err, w1) ->
     GetContent d path w = (Err err, w1))
  /\ (forall c e r0 r1,
        hdfs_New (nameNode (config d)) (remote w) = (Ok c, r0) ->
        client_Open c (fullPath d path) r0 = (Err e, r1) ->
        os_IsNotExist e = true ->
        fst (GetContent d path w) = Err (PathNotFoundError (fullPath d path)))
  /\ (forall h w1 p e ec r2 r3,
        Reader d path 0 w = (Ok h, w1) ->
        reader_ReadAll h (remote w1) = ((p, e), r2) ->
        reader_Close h r2 = (ec, r3) ->
        GetContent d path w =
        (match e with
         | None => Ok p
         | Some err => Err err
         end,
         {| remote := r3; trace := trace w1 ++ [EvReaderClose h] |})).
Proof.
  repeat split.
  - intros err w1 Hr. unfold GetContent.
    erewrite bind_run by eassumption. reflexivity.
  - intros c e r0 r1 Hnew Hop Hne. unfold GetContent, Reader, newHdfsClient.
    run_calls. rewrite Hne. reflexivity.
  - intros h w1 p e ec r2 r3 Hr Hrd Hcl. unfold GetContent.
    erewrite bind_run by eassumption.
    unfold bind, ask, ret. rewrite Hrd.
    destruct e; simpl; erewrite call_run by (simpl; eassumption); reflexivity.
Qed.

(** X13. Stat makes two calls, the client and the [Stat] of the full path.
    A file that is absent gives [PathNotFoundError] with the path as the
    caller wrote it, without the root; any other failure is returned as it
    is; on success the result carries the caller's path and the directory
    flag, size and time that the remote side reported. *)
Theorem Stat_reports_the_callers_path
        (d : driver) (subPath : string) (w : World W) (c : Client) (r0 : W) :
  let fp := fullPath d subPath in
  let after r := {| remote := r;
                    trace := trace w ++ [EvNew (nameNode (config d)); EvStat c fp] |} in
  hdfs_New (nameNode (config d)) (remote w) = (Ok c, r0) ->
  (forall e r1,
     client_Stat c fp r0 = (Err e, r1) ->
     Stat d subPath w =
     (Err (if os_IsNotExist e then PathNotFoundError subPath else e), after r1))
  /\ (forall info r1,
        client_Stat c fp r0 = (Ok info, r1) ->
        Stat d subPath w =
        (Ok {| fields_Path := subPath;
               fields_IsDir := fi_IsDir info;
               fields_Size := fi_Size info;
               fields_ModTime := fi_ModTime info |}, after r1)).
Proof.
  intros fp after Hnew. split.
  - intros e r1 Hst. unfold Stat, newHdfsClient. fold fp. run_calls.
    destruct (os_IsNotExist e); reflexivity.
  - intros info r1 Hst. unfold Stat, newHdfsClient. fold fp. run_calls.
    reflexivity.
Qed.

(** X14. List returns one key for each name that the directory handle
    lists, in the same order, each the join of the caller's path and the
    name; and it closes the directory handle before it returns, also when
    listing failed, in which case the error of the listing is returned.  A
    directory that is absent gives [PathNotFoundError] with the caller's
    path; no handle was opened then. *)
Theorem List_joins_names_and_closes
        (d : driver) (subPath : string) (w : World W) (c : Client) (r0 : W) :
  let fp := fullPath d subPath in
  let nn := nameNode (config d) in
  hdfs_New nn (remote w) = (Ok c, r0) ->
  (forall e r1,
     client_Open c fp r0 = (Err e, r1) ->
     List d subPath w =
     (Err (if os_IsNotExist e then PathNotFoundError subPath else e),
      {| remote := r1; trace := trace w ++ [EvNew nn; EvOpen c fp] |}))
  /\ (forall h names e ec r1 r2 r3,
        client_Open c fp r0 = (Ok h, r1) ->
        reader_Readdirnames h 0 r1 = ((names, e), r2) ->
        reader_Close h r2 = (ec, r3) ->
        List d subPath w =
        (match e with
         | None => Ok (map (path_Join subPath) names)
         | Some err => Err err
         end,
         {| remote := r3;
            trace := trace w ++ [EvNew nn; EvOpen c fp; EvReaderClose h] |})
        /\ (forall keys, fst (List d subPath w) = Ok keys ->
                         Datatypes.length keys = Datatypes.length names
                         /\ forall i name, nth_error names i = Some name ->
                                           nth_error keys i
                                           = Some (path_Join subPath name))).
Proof.
  intros fp nn Hnew. split.
  - intros e r1 Hop. unfold List, newHdfsClient. fold fp nn. run_calls.
    destruct (os_IsNotExist e); reflexivity.
  - intros h names e ec r1 r2 r3 Hop Hrd Hcl.
    assert (Hlist : List d subPath w =
                    (match e with
                     | None => Ok (map (path_Join subPath) names)
                     | Some err => Err err
                     end,
                     {| remote := r3;
                        trace := trace w ++ [EvNew nn; EvOpen c fp; EvReaderClose h] |})).
    { unfold List, newHdfsClient. fold fp nn. run_calls.
      unfold ask. simpl. rewrite Hrd.
      destruct e; simpl; erewrite call_run by (simpl; eassumption);
        simpl; tidy_trace; reflexivity. }
    split; [ exact Hlist | ].
    intros keys Hk. rewrite Hlist in Hk. simpl in Hk.
    destruct e; [ discriminate Hk | ]. inversion Hk; subst. split.
    + apply length_map.
    + intros i name Hi. rewrite nth_error_map, Hi. reflexivity.
Qed.

(** X15. Move with a source that is absent fails with [PathNotFoundError]
    on the source path as the caller wrote it, and neither makes a
    directory nor renames.  Otherwise it makes the parent directory of the
    destination; when that fails the error is returned and nothing is
    renamed; when it succeeds the result is what the rename answers. *)
Theorem Move_checks_source_first
        (d : driver) (sourcePath destPath : string) (w : World W)
        (c : Client) (st : result osFileInfo) (r0 r1 : W) :
  let source := fullPath d sourcePath in
  let dest := fullPath d destPath in
  let nn := nameNode (config d) in
  let absent := match st with
                | Err e => os_IsNotExist e
                | Ok _ => false
                end in
  hdfs_New nn (remote w) = (Ok c, r0) ->
  client_Stat c source r0 = (st, r1) ->
  (absent = true ->
     Move d sourcePath destPath w =
     (Some (PathNotFoundError sourcePath),
      {| remote := r1; trace := trace w ++ [EvNew nn; EvStat c source] |}))
  /\ (forall e r2,
        absent = false ->
        client_MkdirAll c (path_Dir dest) 493 r1 = (Some e, r2) ->
        Move d sourcePath destPath w =
        (Some e,
         {| remote := r2;
            trace := trace w ++ [EvNew nn; EvStat c source;
                                 EvMkdirAll c (path_Dir dest) 493] |}))
  /\ (forall er r2 r3,
        absent = false ->
        client_MkdirAll c (path_Dir dest) 493 r1 = (None, r2) ->
        client_Rename c source dest r2 = (er, r3) ->
        Move d sourcePath destPath w =
        (er,
         {| remote := r3;
            trace := trace w ++ [EvNew nn; EvStat c source;
                                 EvMkdirAll c (path_Dir dest) 493] |})).
Proof.
  intros source dest nn absent Hnew Hst. repeat split.
  - intros Ha. unfold Move, newHdfsClient. fold source dest nn. run_calls.
    fold absent. rewrite Ha. reflexivity.
  - intros e r2 Ha Hmk. unfold Move, newHdfsClient. fold source dest nn.
    run_calls. fold absent. rewrite Ha. run_calls. reflexivity.
  - intros er r2 r3 Ha Hmk Hrn. unfold Move, newHdfsClient. fold source dest nn.
    run_calls. fold absent. rewrite Ha. run_calls.
    unfold ask. simpl. rewrite Hrn. reflexivity.
Qed.

(** X16. Delete removes only what [Stat] has found: when [Stat] fails no
    remove is issued, and the result is [PathNotFoundError] with the
    caller's path for a file that is absent, the error of [Stat] otherwise.
    When [Stat] succeeds the full path is removed and the result is what
    the remove answers. *)
Theorem Delete_removes_only_what_Stat_found
        (d : driver) (subPath : string) (w : World W) (c : Client) (r0 : W) :
  let fp := fullPath d subPath in
  let nn := nameNode (config d) in
  hdfs_New nn (remote w) = (Ok c, r0) ->
  (forall e r1,
     client_Stat c fp r0 = (Err e, r1) ->
     Delete d subPath w =
     (Some (if os_IsNotExist e then PathNotFoundError subPath else e),
      {| remote := r1; trace := trace w ++ [EvNew nn; EvStat c fp] |}))
  /\ (forall info er r1 r2,
        client_Stat c fp r0 = (Ok info, r1) ->
        client_Remove c fp r1 = (er, r2) ->
        Delete d subPath w =
        (er, {| remote := r2;
                trace := trace w ++ [EvNew nn; EvStat c fp; EvRemove c fp] |})).
Proof.
  intros fp nn Hnew. split.
  - intros e r1 Hst. unfold Delete, newHdfsClient. fold fp nn. run_calls.
    destruct (os_IsNotExist e); reflexivity.
  - intros info er r1 r2 Hst Hrm. unfold Delete, newHdfsClient. fold fp nn.
    run_calls. reflexivity.
Qed.

(** X17. A [Stat] that fails otherwise than by a missing file stops Delete
    but not Move: Delete returns the error, while Move forgets it, goes on
    to make the directory and to rename, and returns nil when these
    succeed. *)
Theorem Move_forgets_a_Stat_failure
        (d : driver) (sourcePath destPath : string) (w : World W)
        (c : Client) (e : error) (r0 r1 r2 r3 : W) :
  let source := fullPath d sourcePath in
  let dest := fullPath d destPath in
  hdfs_New (nameNode (config d)) (remote w) = (Ok c, r0) ->
  client_Stat c source r0 = (Err e, r1) ->
  os_IsNotExist e = false ->
  client_MkdirAll c (path_Dir dest) 493 r1 = (None, r2) ->
  client_Rename c source dest r2 = (None, r3) ->
  fst (Move d sourcePath destPath w) = None
  /\ remote (snd (Move d sourcePath destPath w)) = r3
  /\ fst (Delete d sourcePath w) = Some e.
Proof.
  intros source dest Hnew Hst Hne Hmk Hrn. repeat split.
  - unfold Move, newHdfsClient. fold source dest. run_calls.
    rewrite Hne. run_calls. unfold ask. simpl. rewrite Hrn. reflexivity.
  - unfold Move, newHdfsClient. fold source dest. run_calls.
    rewrite Hne. run_calls. unfold ask. simpl. rewrite Hrn. reflexivity.
  - unfold Delete, newHdfsClient. fold source. run_calls.
    rewrite Hne. reflexivity.
Qed.

End DriverRestProperties.

(** * Configuration *)

Section ConfigProperties.

Context {cl : ConfigLib}.

(** X18. buildConfig succeeds exactly when the key rootdirectory is there
    with a value that does not print as the empty string and the limit is
    accepted (a missing key maxClients is handed over as nil).  The key
    namenode is never needed: the name node of the
    configuration is the printed value of the key, and empty when the key
    is missing.  The root is the printed value of rootdirectory, the client
    bound what [GetLimitFromParameter] returns for the bounds 1 and 1024. *)
Theorem buildConfig_succeeds_iff (parameters : Parameters) (cfg : DriverConfig) :
  buildConfig parameters = Ok cfg <->
  exists root n,
    parameters "rootdirectory"%string = Some root
    /\ fmt_Sprint root <> ""%string
    /\ GetLimitFromParameter (match parameters "maxClients"%string with
                           | Some v => v
                           | None => Nil
                           end) 1 1024 = (n, None)
    /\ cfg = {| nameNode := match parameters "namenode"%string with
                            | Some v => fmt_Sprint v
                            | None => ""%string
                            end;
                rootPath := fmt_Sprint root;
                maxClients := n |}.
Proof.
  assert (Hnn : fmt_Sprint
                  match parameters paramNameNode with
                  | Some nn => if String.eqb (fmt_Sprint nn) "" then Str "" else nn
                  | None => Str ""
                  end
                = match parameters "namenode"%string with
                  | Some v => fmt_Sprint v
                  | None => ""%string
                  end).
  { unfold paramNameNode. destruct (parameters "namenode"%string) as [v | ].
    - destruct (String.eqb (fmt_Sprint v) "") eqn:Hv; [ | reflexivity ].
      apply String.eqb_eq in Hv. rewrite Hv. reflexivity.
    - reflexivity. }
  unfold buildConfig, paramRootDir, paramMaxClients,
    defaultMaxClients.
  split.
  - intros H.
    destruct (parameters "rootdirectory"%string) as [root | ]; [ | discriminate H ].
    destruct (String.eqb (fmt_Sprint root) "") eqn:Hroot; [ discriminate H | ].
    destruct (GetLimitFromParameter _ 1 1024) as [n [e | ]] eqn:Hlim;
      [ discriminate H | ].
    inversion H; subst; clear H. exists root, n. repeat split.
    + now apply String.eqb_neq.
    + rewrite Hnn. reflexivity.
  - intros (root & n & Hroot & Hne & Hlim & ->).
    rewrite Hroot. apply String.eqb_neq in Hne. rewrite Hne.
    rewrite Hlim. rewrite Hnn. reflexivity.
Qed.

(** X19. buildConfig without a root: when the key rootdirectory is missing,
    or its value prints as the empty string, the error is "no rootdirectory
    parameter provided", whatever the other keys hold; the limit is looked
    at only after the root, and a limit that is refused gives "maxClients
    config error: " followed by the text of that error. *)
Theorem buildConfig_errors (parameters : Parameters) :
  (parameters "rootdirectory"%string = None ->
     buildConfig parameters = Err (Errorf "no rootdirectory parameter provided"))
  /\ (forall root,
        parameters "rootdirectory"%string = Some root ->
        fmt_Sprint root = ""%string ->
        buildConfig parameters = Err (Errorf "no rootdirectory parameter provided"))
  /\ (forall root n e,
        parameters "rootdirectory"%string = Some root ->
        fmt_Sprint root <> ""%string ->
        GetLimitFromParameter (match parameters "maxClients"%string with
                           | Some v => v
                           | None => Nil
                           end) 1 1024 = (n, Some e) ->
        buildConfig parameters
        = Err (Errorf (String.append "maxClients config error: " (error_Error e)))).
Proof.
  unfold buildConfig, paramRootDir, paramMaxClients,
    defaultMaxClients.
  repeat split.
  - intros ->. reflexivity.
  - intros root -> Hroot. rewrite Hroot. reflexivity.
  - intros root n e -> Hroot Hlim. apply String.eqb_neq in Hroot.
    rewrite Hroot, Hlim. reflexivity.
Qed.

End ConfigProperties.

(** * The copy under PutContent *)

(** X20. The copy never reports more bytes than it was given, nor fewer
    than none; and a copy that took fewer bytes than the whole content
    always carries an error, whatever state the transaction is in. *)
Theorem io_Copy_count_and_error {W : Type} {be : Backend W}
        (fw fw2 : fileWriter) (contents : list byte) (w w2 : World W)
        (n : Z) (cerr : option error) :
  io_Copy fw contents w = ((n, cerr, fw2), w2) ->
  0 <= n <= len contents
  /\ (n < len contents -> exists err, cerr = Some err).
Proof.
  intros H. destruct (io_Copy_keeps _ _ _ H) as (_ & _ & _ & _ & _ & _ & Kn).
  assert (Hlen : 0 <= len contents) by (unfold len; lia).
  split.
  - unfold io_Copy in H. destruct (len contents <=? 0) eqn:Hl.
    + inversion H; subst. lia.
    + unfold bind in H. pose proof (Write_count fw contents w) as Hc.
      destruct (Write fw contents w) as [[[m e] fw'] w'].
      unfold ret in H. inversion H; subst. exact Hc.
  - intros Hlt. destruct cerr as [err | ].
    + now exists err.
    + specialize (Kn eq_refl). lia.
Qed.

(** * More concrete runs on the scripted remote side *)

(** A committed transaction stays committed through a write, a close, a
    commit and a cancel. *)
Lemma flags_never_cleared_witness :
  committed (fst (run_ops [OpWrite abc; OpClose; OpCommit; OpCancel]
                          (set_committed someWriter true) (start []))) = true.
Proof.
  apply (proj1 (proj2 (@flags_never_cleared Script Scripted
                         [OpWrite abc; OpClose; OpCommit; OpCancel]
                         (set_committed someWriter true) (start [])))).
  reflexivity.
Defined.

Lemma nothing_happens_after_Close_witness :
  run_ops [OpWrite abc; OpCommit; OpCancel; OpClose]
          (set_closed someWriter true)
          {| remote := []; trace := [EvFlush 7%nat; EvClose 7%nat] |}
  = (set_closed someWriter true,
     {| remote := []; trace := [EvFlush 7%nat; EvClose 7%nat] |}).
Proof.
  apply (@nothing_happens_after_Close Script Scripted
           [OpWrite abc; OpCommit; OpCancel; OpClose] someWriter
           (set_closed someWriter true) (start [])
           {| remote := []; trace := [EvFlush 7%nat; EvClose 7%nat] |}).
  reflexivity.
Defined.

Lemma no_Commit_after_Cancel_witness :
  committed (fst (run_ops [OpCommit; OpWrite abc; OpCommit]
                          (set_cancelled someWriter true)
                          {| remote := [];
                             trace := [EvClose 7%nat;
                                       EvRemove 1%nat "/registry/blob"] |}))
  = false.
Proof.
  apply (@no_Commit_after_Cancel Script Scripted
           [OpCommit; OpWrite abc; OpCommit] someWriter
           (set_cancelled someWriter true) (start [])
           {| remote := [];
              trace := [EvClose 7%nat; EvRemove 1%nat "/registry/blob"] |}
           None); reflexivity.
Defined.

(** Writer where no file is: the [Stat] answers with a not-exist failure. *)
Lemma Writer_on_missing_file_witness :
  Writer someDriver "blob" true
         (start [Value 1 None; Succeed; Fail notFound; Value 7 None])
  = (Ok (newWriter 1%nat "/registry/blob" 7%nat 0),
     {| remote := [];
        trace := [EvNew "nn:8020"; EvMkdirAll 1%nat "/registry" 511;
                  EvStat 1%nat "/registry/blob"; EvAppend 1%nat "/registry/blob"] |})
  /\ Writer someDriver "blob" false
            (start [Value 1 None; Succeed; Fail notFound; Value 7 None])
     = (Ok (newWriter 1%nat "/registry/blob" 7%nat 0),
        {| remote := [];
           trace := [EvNew "nn:8020"; EvMkdirAll 1%nat "/registry" 511;
                     EvStat 1%nat "/registry/blob"; EvCreate 1%nat "/registry/blob"] |}).
Proof.
  destruct (@Writer_on_missing_file Script Scripted SlashPaths someDriver "blob"
              (start [Value 1 None; Succeed; Fail notFound; Value 7 None])
              1%nat notFound
              [Succeed; Fail notFound; Value 7 None]
              [Fail notFound; Value 7 None] [Value 7 None]
              eq_refl eq_refl eq_refl eq_refl) as [Happend Hcreate].
  split.
  - exact (Happend 7%nat [] eq_refl).
  - exact (Hcreate 7%nat [] eq_refl).
Defined.

Lemma Writer_mode_calls_witness :
  (exists evs,
     trace (snd (Writer someDriver "blob" true (start appendScript))) = [] ++ evs
     /\ forallb (fun ev => negb (is_remove ev || is_create ev)) evs = true)
  /\ (exists evs,
        trace (snd (Writer someDriver "blob" false (start truncateScript))) = [] ++ evs
        /\ forallb (fun ev => negb (is_append ev)) evs = true).
Proof.
  split.
  - destruct (@Writer_mode_calls Script Scripted SlashPaths someDriver "blob"
                true (start appendScript)) as (evs & H1 & H2 & _).
    exists evs. split; [ exact H1 | exact (H2 eq_refl) ].
  - destruct (@Writer_mode_calls Script Scripted SlashPaths someDriver "blob"
                false (start truncateScript)) as (evs & H1 & _ & H2).
    exists evs. split; [ exact H1 | exact (H2 eq_refl) ].
Defined.

(** Writer when the [Stat] fails otherwise, and when the remove fails. *)
Lemma Writer_stops_at_first_failure_witness :
  Writer someDriver "blob" true (start [Value 1 None; Succeed; Fail statError; Value 7 None])
  = (Err statError,
     {| remote := [Value 7 None];
        trace := [EvNew "nn:8020"; EvMkdirAll 1%nat "/registry" 511;
                  EvStat 1%nat "/registry/blob"] |})
  /\ Writer someDriver "blob" false
            (start [Value 1 None; Succeed; Value 10 None; Fail removeError; Value 7 None])
     = (Err removeError,
        {| remote := [Value 7 None];
           trace := [EvNew "nn:8020"; EvMkdirAll 1%nat "/registry" 511;
                     EvStat 1%nat "/registry/blob";
                     EvRemove 1%nat "/registry/blob"] |}).
Proof.
  split.
  - exact (proj1 (proj2 (proj2
             (@Writer_stops_at_first_failure Script Scripted SlashPaths someDriver
                "blob" true
                (start [Value 1 None; Succeed; Fail statError; Value 7 None]))))
             1%nat statError [Succeed; Fail statError; Value 7 None]
             [Fail statError; Value 7 None] [Value 7 None]
             eq_refl eq_refl eq_refl eq_refl).
  - exact (proj2 (proj2 (proj2
             (@Writer_stops_at_first_failure Script Scripted SlashPaths someDriver
                "blob" false
                (start [Value 1 None; Succeed; Value 10 None; Fail removeError;
                        Value 7 None]))))
             1%nat (mkFileInfo false 10 0) removeError
             [Succeed; Value 10 None; Fail removeError; Value 7 None]
             [Value 10 None; Fail removeError; Value 7 None]
             [Fail removeError; Value 7 None] [Value 7 None]
             eq_refl eq_refl eq_refl eq_refl eq_refl).
Defined.

(** Reader with the offset 2 on a handle whose seek gets there, and with the
    offset 10 when the seek stops at 3. *)
Lemma Reader_returns_or_closes_witness :
  (4%nat = 4%nat
   /\ (exists pos, reader_Seek 4%nat 2 io_SeekStart [Succeed] = ((pos, None), [])
                   /\ 2 <= pos)
   /\ trace (snd (Reader someDriver "blob" 2
                         (start [Value 1 None; Value 4 None; Succeed])))
      = [EvNew "nn:8020"; EvOpen 1%nat "/registry/blob"; EvSeek 4%nat 2 0])
  /\ trace (snd (Reader someDriver "blob" 10
                        (start [Value 1 None; Value 4 None; Value 3 None; Succeed])))
     = [EvNew "nn:8020"; EvOpen 1%nat "/registry/blob"; EvSeek 4%nat 10 0;
        EvReaderClose 4%nat].
Proof.
  split.
  - exact (@Reader_returns_or_closes Script Scripted SlashPaths someDriver "blob" 2
             (start [Value 1 None; Value 4 None; Succeed])
             {| remote := [];
                trace := [EvNew "nn:8020"; EvOpen 1%nat "/registry/blob";
                          EvSeek 4%nat 2 0] |}
             1%nat 4%nat [Value 4 None; Succeed] [Succeed] (Ok 4%nat)
             eq_refl eq_refl eq_refl).
  - exact (@Reader_returns_or_closes Script Scripted SlashPaths someDriver "blob" 10
             (start [Value 1 None; Value 4 None; Value 3 None; Succeed])
             {| remote := [];
                trace := [EvNew "nn:8020"; EvOpen 1%nat "/registry/blob";
                          EvSeek 4%nat 10 0; EvReaderClose 4%nat] |}
             1%nat 4%nat [Value 4 None; Value 3 None; Succeed]
             [Value 3 None; Succeed]
             (Err (InvalidOffsetError "/registry/blob" 10))
             eq_refl eq_refl eq_refl).
Defined.

(** PutContent when every call succeeds but the last, the close of the
    handle in the deferred [Close]. *)
Lemma PutContent_drops_Close_failure_witness :
  PutContent someDriver "blob" abc
             (start [Value 1 None; Succeed; Value 10 None; Succeed; Value 7 None;
                     Succeed; Succeed; Succeed; Fail closeError])
  = (None,
     {| remote := [];
        trace := [EvNew "nn:8020"; EvMkdirAll 1%nat "/registry" 511;
                  EvStat 1%nat "/registry/blob"; EvRemove 1%nat "/registry/blob";
                  EvCreate 1%nat "/registry/blob"; EvWrite 7%nat abc;
                  EvFlush 7%nat; EvFlush 7%nat; EvClose 7%nat] |}).
Proof.
  exact (@PutContent_drops_Close_failure Script Scripted SlashPaths
           someDriver "blob" abc
           (start [Value 1 None; Succeed; Value 10 None; Succeed; Value 7 None;
                   Succeed; Succeed; Succeed; Fail closeError])
           {| remote := [Succeed; Succeed; Succeed; Fail closeError];
              trace := [EvNew "nn:8020"; EvMkdirAll 1%nat "/registry" 511;
                        EvStat 1%nat "/registry/blob";
                        EvRemove 1%nat "/registry/blob";
                        EvCreate 1%nat "/registry/blob"] |}
           {| remote := [Succeed; Succeed; Fail closeError];
              trace := [EvNew "nn:8020"; EvMkdirAll 1%nat "/registry" 511;
                        EvStat 1%nat "/registry/blob";
                        EvRemove 1%nat "/registry/blob";
                        EvCreate 1%nat "/registry/blob"; EvWrite 7%nat abc] |}
           (newWriter 1%nat "/registry/blob" 7%nat 0)
           (set_size (newWriter 1%nat "/registry/blob" 7%nat 0) 3) 3
           None (Some closeError)
           [Succeed; Fail closeError] [Fail closeError] []
           eq_refl eq_refl eq_refl eq_refl eq_refl).
Defined.

(** PutContent when the transport takes two bytes of three and the remove
    in [Cancel] fails. *)
Lemma PutContent_failure_closes_twice_witness :
  PutContent someDriver "blob" abc
             (start [Value 1 None; Succeed; Value 10 None; Succeed; Value 7 None;
                     Value 2 None; Succeed; Fail removeError; Succeed; Succeed])
  = (Some ErrShortWrite,
     {| remote := [];
        trace := [EvNew "nn:8020"; EvMkdirAll 1%nat "/registry" 511;
                  EvStat 1%nat "/registry/blob"; EvRemove 1%nat "/registry/blob";
                  EvCreate 1%nat "/registry/blob"; EvWrite 7%nat abc;
                  EvClose 7%nat; EvRemove 1%nat "/registry/blob";
                  EvFlush 7%nat; EvClose 7%nat] |}).
Proof.
  exact (@PutContent_failure_closes_twice Script Scripted SlashPaths
           someDriver "blob" abc
           (start [Value 1 None; Succeed; Value 10 None; Succeed; Value 7 None;
                   Value 2 None; Succeed; Fail removeError; Succeed; Succeed])
           {| remote := [Value 2 None; Succeed; Fail removeError; Succeed; Succeed];
              trace := [EvNew "nn:8020"; EvMkdirAll 1%nat "/registry" 511;
                        EvStat 1%nat "/registry/blob";
                        EvRemove 1%nat "/registry/blob";
                        EvCreate 1%nat "/registry/blob"] |}
           {| remote := [Succeed; Fail removeError; Succeed; Succeed];
              trace := [EvNew "nn:8020"; EvMkdirAll 1%nat "/registry" 511;
                        EvStat 1%nat "/registry/blob";
                        EvRemove 1%nat "/registry/blob";
                        EvCreate 1%nat "/registry/blob"; EvWrite 7%nat abc] |}
           (newWriter 1%nat "/registry/blob" 7%nat 0)
           (set_size (newWriter 1%nat "/registry/blob" 7%nat 0) 2) 2
           ErrShortWrite None (Some removeError) None None
           [Fail removeError; Succeed; Succeed] [Succeed; Succeed] [Succeed] []
           eq_refl eq_refl eq_refl eq_refl eq_refl eq_refl).
Defined.

(** GetContent of a path that is absent, and of a file whose read fails:
    the handle 4 is closed all the same. *)
Lemma GetContent_reads_then_closes_witness :
  fst (@GetContent Script Scripted (ScriptedFiles abc []) SlashPaths
                   someDriver "blob" (start [Value 1 None; Fail notFound]))
  = Err (PathNotFoundError "/registry/blob")
  /\ @GetContent Script Scripted (ScriptedFiles abc []) SlashPaths
                 someDriver "blob"
                 (start [Value 1 None; Value 4 None; Succeed; Fail readError; Succeed])
     = (Err readError,
        {| remote := [];
           trace := [EvNew "nn:8020"; EvOpen 1%nat "/registry/blob";
                     EvSeek 4%nat 0 0; EvReaderClose 4%nat] |})
  /\ @GetContent Script Scripted (ScriptedFiles abc []) SlashPaths
                 someDriver "blob" (start [Value 1 None; Value 4 None])
     = (Ok abc,
        {| remote := [];
           trace := [EvNew "nn:8020"; EvOpen 1%nat "/registry/blob";
                     EvSeek 4%nat 0 0; EvReaderClose 4%nat] |}).
Proof.
  split; [ | split ].
  - exact (proj1 (proj2 (@GetContent_reads_then_closes Script Scripted
                           (ScriptedFiles abc []) SlashPaths someDriver "blob"
                           (start [Value 1 None; Fail notFound])))
                 1%nat notFound [Fail notFound] [] eq_refl eq_refl eq_refl).
  - exact (proj2 (proj2 (@GetContent_reads_then_closes Script Scripted
                           (ScriptedFiles abc []) SlashPaths someDriver "blob"
                           (start [Value 1 None; Value 4 None; Succeed;
                                   Fail readError; Succeed])))
                 4%nat
                 {| remote := [Fail readError; Succeed];
                    trace := [EvNew "nn:8020"; EvOpen 1%nat "/registry/blob";
                              EvSeek 4%nat 0 0] |}
                 [] (Some readError) None [Succeed] []
                 eq_refl eq_refl eq_refl).
  - exact (proj2 (proj2 (@GetContent_reads_then_closes Script Scripted
                           (ScriptedFiles abc []) SlashPaths someDriver "blob"
                           (start [Value 1 None; Value 4 None])))
                 4%nat
                 {| remote := [];
                    trace := [EvNew "nn:8020"; EvOpen 1%nat "/registry/blob";
                              EvSeek 4%nat 0 0] |}
                 abc None None [] []
                 eq_refl eq_refl eq_refl).
Defined.

(** Stat of a path that is absent and of a file of 10 bytes. *)
Lemma Stat_reports_the_callers_path_witness :
  Stat someDriver "blob" (start [Value 1 None; Fail notFound])
  = (Err (PathNotFoundError "blob"),
     {| remote := [];
        trace := [EvNew "nn:8020"; EvStat 1%nat "/registry/blob"] |})
  /\ Stat someDriver "blob" (start [Value 1 None; Value 10 None])
     = (Ok {| fields_Path := "blob"; fields_IsDir := false;
              fields_Size := 10; fields_ModTime := 0 |},
        {| remote := [];
           trace := [EvNew "nn:8020"; EvStat 1%nat "/registry/blob"] |}).
Proof.
  split.
  - exact (proj1 (@Stat_reports_the_callers_path Script Scripted SlashPaths
                    someDriver "blob" (start [Value 1 None; Fail notFound])
                    1%nat [Fail notFound] eq_refl)
                 notFound [] eq_refl).
  - exact (proj2 (@Stat_reports_the_callers_path Script Scripted SlashPaths
                    someDriver "blob" (start [Value 1 None; Value 10 None])
                    1%nat [Value 10 None] eq_refl)
                 (mkFileInfo false 10 0) [] eq_refl).
Defined.

(** List of a directory with the two names a and b. *)
Lemma List_joins_names_and_closes_witness :
  @List Script Scripted (ScriptedFiles [] ["a"; "b"]%string) SlashPaths
        someDriver "dir" (start [Value 1 None; Value 4 None])
  = (Ok ["dir/a"; "dir/b"]%string,
     {| remote := [];
        trace := [EvNew "nn:8020"; EvOpen 1%nat "/registry/dir";
                  EvReaderClose 4%nat] |}).
Proof.
  exact (proj1 (proj2 (@List_joins_names_and_closes Script Scripted
                         (ScriptedFiles [] ["a"; "b"]%string) SlashPaths
                         someDriver "dir" (start [Value 1 None; Value 4 None])
                         1%nat [Value 4 None] eq_refl)
                      4%nat ["a"; "b"]%string None None [] [] []
                      eq_refl eq_refl eq_refl)).
Defined.

(** Move of a source that is absent. *)
Lemma Move_checks_source_first_witness :
  @Move Script Scripted (ScriptedFiles [] []) SlashPaths
        someDriver "old" "new" (start [Value 1 None; Fail notFound; Succeed; Succeed])
  = (Some (PathNotFoundError "old"),
     {| remote := [Succeed; Succeed];
        trace := [EvNew "nn:8020"; EvStat 1%nat "/registry/old"] |}).
Proof.
  exact (proj1 (@Move_checks_source_first Script Scripted (ScriptedFiles [] [])
                  SlashPaths someDriver "old" "new"
                  (start [Value 1 None; Fail notFound; Succeed; Succeed])
                  1%nat (Err notFound) [Fail notFound; Succeed; Succeed]
                  [Succeed; Succeed] eq_refl eq_refl)
               eq_refl).
Defined.

(** Delete when [Stat] fails otherwise than by a missing file, and when it
    succeeds. *)
Lemma Delete_removes_only_what_Stat_found_witness :
  Delete someDriver "blob" (start [Value 1 None; Fail statError; Succeed])
  = (Some statError,
     {| remote := [Succeed];
        trace := [EvNew "nn:8020"; EvStat 1%nat "/registry/blob"] |})
  /\ Delete someDriver "blob" (start [Value 1 None; Value 10 None; Fail removeError])
     = (Some removeError,
        {| remote := [];
           trace := [EvNew "nn:8020"; EvStat 1%nat "/registry/blob";
                     EvRemove 1%nat "/registry/blob"] |}).
Proof.
  split.
  - exact (proj1 (@Delete_removes_only_what_Stat_found Script Scripted SlashPaths
                    someDriver "blob"
                    (start [Value 1 None; Fail statError; Succeed])
                    1%nat [Fail statError; Succeed] eq_refl)
                 statError [Succeed] eq_refl).
  - exact (proj2 (@Delete_removes_only_what_Stat_found Script Scripted SlashPaths
                    someDriver "blob"
                    (start [Value 1 None; Value 10 None; Fail removeError])
                    1%nat [Value 10 None; Fail removeError] eq_refl)
                 (mkFileInfo false 10 0) (Some removeError) [Fail removeError] []
                 eq_refl eq_refl).
Defined.

(** The same failing [Stat] under Move and under Delete. *)
Lemma Move_forgets_a_Stat_failure_witness :
  fst (@Move Script Scripted (ScriptedFiles [] []) SlashPaths
             someDriver "old" "new" (start [Value 1 None; Fail statError])) = None
  /\ remote (snd (@Move Script Scripted (ScriptedFiles [] []) SlashPaths
                        someDriver "old" "new"
                        (start [Value 1 None; Fail statError]))) = []
  /\ fst (Delete someDriver "old" (start [Value 1 None; Fail statError]))
     = Some statError.
Proof.
  exact (@Move_forgets_a_Stat_failure Script Scripted (ScriptedFiles [] [])
           SlashPaths someDriver "old" "new"
           (start [Value 1 None; Fail statError])
           1%nat statError [Fail statError] [] [] []
           eq_refl eq_refl eq_refl eq_refl eq_refl).
Defined.

(** A parameter map that names the root only: no name node, 1024 clients. *)
Lemma buildConfig_succeeds_iff_witness :
  @buildConfig SimpleConfigLib rootOnly
  = Ok {| nameNode := ""; rootPath := "/registry"; maxClients := 1024 |}.
Proof.
  apply (proj2 (@buildConfig_succeeds_iff SimpleConfigLib rootOnly
                  {| nameNode := ""; rootPath := "/registry"; maxClients := 1024 |})).
  exists (Str "/registry"), 1024. repeat split. discriminate.
Defined.

(** An empty parameter map, and a root together with a limit that is
    refused. *)
Lemma buildConfig_errors_witness :
  @buildConfig SimpleConfigLib (fun _ => None)
  = Err (Errorf "no rootdirectory parameter provided")
  /\ @buildConfig SimpleConfigLib
                  (fun key => if String.eqb key "namenode" then None
                              else Some (Str "x"))
     = Err (Errorf "maxClients config error: invalid value").
Proof.
  split.
  - exact (proj1 (@buildConfig_errors SimpleConfigLib (fun _ => None)) eq_refl).
  - apply (proj2 (proj2 (@buildConfig_errors SimpleConfigLib
                           (fun key => if String.eqb key "namenode" then None
                                       else Some (Str "x"))))
                 (Str "x") 0 (Errorf "invalid value")).
    + reflexivity.
    + discriminate.
    + reflexivity.
Defined.

(** A copy of three bytes of which the transport takes two. *)
Lemma io_Copy_count_and_error_witness :
  0 <= 2 <= len abc /\ (2 < len abc -> exists err, Some ErrShortWrite = Some err).
Proof.
  exact (@io_Copy_count_and_error Script Scripted someWriter
           (set_size someWriter 2) abc (start [Value 2 None])
           {| remote := []; trace := [EvWrite 7%nat abc] |}
           2 (Some ErrShortWrite) eq_refl).
Defined.
